(** * A shallow embedding of the rental-marketplace server (src/server.js)

    The server is an Express application over four JSON files.  Every
    route handler reads whole collections with [readData], works on the
    in-memory array and rewrites the whole file with [writeData].

    Conventions of the embedding:
    - a JSON record is a finite map from field names to [jsval]; a field
      that is absent reads as [JUndefined], as a JavaScript property does;
    - a collection is a [list] of records, in file order;
    - an instant is a [Z], the number of milliseconds since the epoch; an
      invalid [Date] is [None];
    - the clock ([new Date()]) and the identifier generator ([uuidv4()])
      are inputs of the handler that uses them;
    - what the JavaScript runtime and the npm packages decide (non-ISO date
      parsing, the local time zone, [parseInt], [parseFloat], [bcrypt]) is
      the interface [JsRuntime];
    - numbers are rationals: rounding of IEEE doubles is not modelled, and
      no statement below depends on the value of an arithmetic result that
      could be rounded;
    - in the handlers [fs.writeFile] succeeds (the data directory is
      writable); [serve_refusing] is the server on a disk where it fails on
      some paths;
    - a file that can be parsed holds an array of records, which is the
      only thing the server ever writes;
    - requests are served one after the other: two handlers interleaved
      at their [await]s are not modelled;
    - clock readings are far inside the range of [Date], so that thirty
      days after one is a valid date. *)

From Stdlib Require Import ZArith QArith Lia Ascii String.
From stdpp Require Import base option list strings gmap.

Local Open Scope string_scope.
Local Open Scope list_scope.
Local Open Scope Z_scope.

(** ** JavaScript values *)

Module Js.

#[local] Set Warnings "-register-all".

Inductive jsval : Type :=
| JUndefined
| JNull
| JBool (b : bool)
| JNum (q : Q)
| JNaN
| JStr (s : string)
| JArr (items : list jsval)
| JObj (fields : list (string * jsval)).

(** [ToBoolean]: what [!v], [a || b] and [c ? x : y] test. *)
Definition truthy (v : jsval) : bool :=
  match v with
  | JUndefined | JNull | JNaN => false
  | JBool b => b
  | JNum q => negb (Qeq_bool q 0)
  | JStr s => negb (String.eqb s "")
  | JArr _ | JObj _ => true
  end.

(** [a === b].  Arrays and objects compare by reference; the two sides of
    every comparison in the server come from different sources (a file and
    a request, or a file and a token), so two such values are never the
    same reference. *)
Definition strict_eq (a b : jsval) : bool :=
  match a, b with
  | JUndefined, JUndefined => true
  | JNull, JNull => true
  | JBool x, JBool y => Bool.eqb x y
  | JNum x, JNum y => Qeq_bool x y
  | JStr x, JStr y => String.eqb x y
  | _, _ => false
  end.

(** [a || b] *)
Definition or_else (a b : jsval) : jsval := if truthy a then a else b.

(** A record, as [JSON.parse] returns it. *)
Abbreviation obj := (gmap string jsval).

(** [o.k] *)
Definition field (o : obj) (k : string) : jsval := default JUndefined (o !! k).

(** [JSON.stringify] writes [NaN] as [null]. *)
Definition json_value (v : jsval) : jsval :=
  match v with JNaN => JNull | _ => v end.

(** [o.k = v].  The handlers build and change records only to hand them to
    [JSON.stringify], for the file and for the reply, so a record is kept
    the way [JSON.stringify] writes it: a property holding [undefined] is
    dropped and [NaN] is written as [null]. *)
Definition set_field (k : string) (v : jsval) (o : obj) : obj :=
  match v with
  | JUndefined => delete k o
  | _ => <[k := json_value v]> o
  end.

(** [{ k1: v1, ..., kn: vn }], later keys overriding earlier ones. *)
Definition object_literal (kvs : list (string * jsval)) : obj :=
  foldl (fun o kv => set_field kv.1 kv.2 o) ∅ kvs.

(** [{ ...a, ...b }] *)
Definition spread (a b : obj) : obj := b ∪ a.

(** [l.find(f)] *)
Fixpoint find {A : Type} (f : A -> bool) (l : list A) : option A :=
  match l with
  | [] => None
  | x :: l' => if f x then Some x else find f l'
  end.

(** [l.findIndex(f)] together with the element [l[i]] at the index found,
    [None] for [-1].  It also stands for [l.find(f)] where the handler goes
    on to assign to a property of the object found: the assignment changes
    that slot of the array. *)
Fixpoint find_ref {A : Type} (f : A -> bool) (l : list A) : option (nat * A) :=
  match l with
  | [] => None
  | x :: l' => if f x then Some (O, x) else prod_map S id <$> find_ref f l'
  end.

(** [l.splice(i, 1)] *)
Definition splice1 {A : Type} (i : nat) (l : list A) : list A := delete i l.

End Js.
Export Js.

(** ** Instants and ISO-8601 strings *)

Module Dates.

Definition msPerDay : Z := 1000 * 60 * 60 * 24.

(** Days since the epoch of a proleptic Gregorian date, and back. *)
Definition days_from_civil (y m d : Z) : Z :=
  let y' := if m <=? 2 then y - 1 else y in
  let era := y' / 400 in
  let yoe := y' - era * 400 in
  let mp := if m >? 2 then m - 3 else m + 9 in
  let doy := (153 * mp + 2) / 5 + d - 1 in
  let doe := yoe * 365 + yoe / 4 - yoe / 100 + doy in
  era * 146097 + doe - 719468.

Definition civil_from_days (z : Z) : Z * Z * Z :=
  let z' := z + 719468 in
  let era := z' / 146097 in
  let doe := z' - era * 146097 in
  let yoe := (doe - doe / 1460 + doe / 36524 - doe / 146096) / 365 in
  let doy := doe - (365 * yoe + yoe / 4 - yoe / 100) in
  let mp := (5 * doy + 2) / 153 in
  let d := doy - (153 * mp + 2) / 5 + 1 in
  let m := if mp <? 10 then mp + 3 else mp - 9 in
  (if m <=? 2 then yoe + era * 400 + 1 else yoe + era * 400, m, d).

Definition is_leap (y : Z) : bool :=
  ((y mod 4 =? 0) && negb (y mod 100 =? 0)) || (y mod 400 =? 0).

Definition days_in_month (y m : Z) : Z :=
  if m =? 2 then (if is_leap y then 29 else 28)
  else if (m =? 4) || (m =? 6) || (m =? 9) || (m =? 11) then 30 else 31.

(** The instant of a UTC date and time of day. *)
Definition utc (y m d hh mm ss ms : Z) : Z :=
  days_from_civil y m d * msPerDay + hh * 3600000 + mm * 60000 + ss * 1000 + ms.

Definition digit (d : Z) : ascii := ascii_of_nat (48 + Z.to_nat d).

(** [v] written with [n] decimal digits, zero padded. *)
Fixpoint digits (n : nat) (v : Z) : string :=
  match n with
  | O => ""
  | S n' => digits n' (v / 10) +:+ String (digit (v mod 10)) ""
  end.

(** [Date.prototype.toISOString] of the instant [t]: four-digit years
    from 0000 to 9999, signed six-digit years outside. *)
Definition toISOString (t : Z) : string :=
  let '(y, m, d) := civil_from_days (t / msPerDay) in
  let r := t mod msPerDay in
  let year :=
    if (0 <=? y) && (y <=? 9999) then digits 4 y
    else if y <? 0 then "-" +:+ digits 6 (- y) else "+" +:+ digits 6 y in
  year +:+ "-" +:+ digits 2 m +:+ "-" +:+ digits 2 d +:+ "T" +:+
  digits 2 (r / 3600000) +:+ ":" +:+ digits 2 (r / 60000 mod 60) +:+ ":" +:+
  digits 2 (r / 1000 mod 60) +:+ "." +:+ digits 3 (r mod 1000) +:+ "Z".

Definition digit_value (c : ascii) : option Z :=
  let n := Z.of_nat (nat_of_ascii c) in
  if (48 <=? n) && (n <=? 57) then Some (n - 48) else None.

(** The number written by a string of decimal digits. *)
Fixpoint number_from (acc : Z) (s : string) : option Z :=
  match s with
  | EmptyString => Some acc
  | String c s' =>
      match digit_value c with
      | Some d => number_from (acc * 10 + d) s'
      | None => None
      end
  end.

Definition number (s : string) : option Z :=
  match s with EmptyString => None | _ => number_from 0 s end.

Definition char_at (s : string) (i : nat) (c : ascii) : bool :=
  match String.get i s with
  | Some c' => Ascii.eqb c c'
  | None => false
  end.

(** The calendar date of the first ten characters, [YYYY-MM-DD]. *)
Definition parse_date (s : string) : option Z :=
  y ← number (substring 0 4 s);
  m ← number (substring 5 2 s);
  d ← number (substring 8 2 s);
  if char_at s 4 "-" && char_at s 7 "-" &&
     (1 <=? m) && (m <=? 12) && (1 <=? d) && (d <=? days_in_month y m)
  then Some (days_from_civil y m d * msPerDay) else None.

(** The time of day of [THH:mm:ss.sssZ], from position 10. *)
Definition parse_time (s : string) : option Z :=
  hh ← number (substring 11 2 s);
  mm ← number (substring 14 2 s);
  ss ← number (substring 17 2 s);
  ms ← number (substring 20 3 s);
  if char_at s 10 "T" && char_at s 13 ":" && char_at s 16 ":" &&
     char_at s 19 "." && char_at s 23 "Z" &&
     (hh <=? 23) && (mm <=? 59) && (ss <=? 59)
  then Some (hh * 3600000 + mm * 60000 + ss * 1000 + ms) else None.

(** The two ISO-8601 forms that the server writes and that date pickers
    send: a date alone, which is midnight UTC, and the full UTC form of
    [toISOString].  Every other string is left to the runtime. *)
Definition parseISO (s : string) : option Z :=
  if (String.length s =? 10)%nat then parse_date s
  else if (String.length s =? 24)%nat then
    day ← parse_date s; time ← parse_time s; Some (day + time)
  else None.

(** [a < b], [a <= b], ... on [Date] objects: the comparison of the time
    values, false as soon as one side is an invalid date. *)
Definition date_cmp (op : Z -> Z -> bool) (a b : option Z) : bool :=
  match a, b with
  | Some x, Some y => op x y
  | _, _ => false
  end.

Definition date_lt := date_cmp Z.ltb.
Definition date_le := date_cmp Z.leb.
Definition date_gt := date_cmp Z.gtb.
Definition date_ge := date_cmp Z.geb.

End Dates.
Export Dates.

(** ** What the runtime decides *)

(** The parts of the JavaScript runtime and of the npm packages that the
    handlers call and that the repository does not define. *)
Class JsRuntime := {
  (** [new Date(v)] for a [v] that is not a string in one of the two forms
      of [parseISO]; [None] is an invalid date. *)
  Date_other : jsval -> option Z;
  (** [d.setDate(d.getDate() + n)]: the instant [n] calendar days after
      [d] in the time zone of the process. *)
  addDays : Z -> Z -> Z;
  parseInt : jsval -> jsval;
  parseFloat : jsval -> jsval;
  (** [Number(v)] for a string, an array or an object. *)
  ToNumber_other : jsval -> jsval;
  (** [bcrypt.compare(password, hash)]; [None] when it throws. *)
  bcrypt_compare : jsval -> jsval -> option bool;
}.

Section Builtins.
Context `{rt : JsRuntime}.

(** [new Date(v)] *)
Definition newDate (v : jsval) : option Z :=
  match v with
  | JStr s =>
      match parseISO s with
      | Some t => Some t
      | None => Date_other v
      end
  | _ => Date_other v
  end.

(** [Number(v)] *)
Definition to_number (v : jsval) : jsval :=
  match v with
  | JUndefined | JNaN => JNaN
  | JNull => JNum 0
  | JBool b => JNum (if b then 1 else 0)
  | JNum q => JNum q
  | JStr _ | JArr _ | JObj _ => ToNumber_other v
  end.

(** [a * b] *)
Definition times (a b : jsval) : jsval :=
  match to_number a, to_number b with
  | JNum x, JNum y => JNum (x * y)
  | _, _ => JNaN
  end.

(** [Math.ceil((b - a) / (1000 * 60 * 60 * 24))] on two dates. *)
Definition nights_between (a b : option Z) : jsval :=
  match a, b with
  | Some x, Some y => JNum (inject_Z ((y - x + msPerDay - 1) / msPerDay))
  | _, _ => JNaN
  end.

End Builtins.

(** A runtime for the worked examples: a process in the UTC time zone,
    where a calendar day is always 86 400 000 ms.  Its other members are
    exact on the inputs the examples give them (numbers, undefined) and
    answer not-a-number or invalid-date elsewhere. *)
Definition utc_runtime : JsRuntime := {|
  Date_other v := match v with
                  | JNum q => Some (Z.quot (Qnum q) (Z.pos (Qden q)))
                  | _ => None
                  end;
  addDays t n := t + n * msPerDay;
  parseInt v := match v with
                | JNum q => JNum (inject_Z (Z.quot (Qnum q) (Z.pos (Qden q))))
                | _ => JNaN
                end;
  parseFloat v := match v with JNum q => JNum q | _ => JNaN end;
  ToNumber_other _ := JNaN;
  bcrypt_compare _ _ := Some false;
|}.

(** ** The record store *)

Module Store.

(** The content of a file: text that [JSON.parse] rejects, or the text of
    an array of records. *)
Inductive text :=
| Malformed (raw : string)
| Encoded (records : list obj).

(** A data file: missing, present but not readable, or readable. *)
Inductive file :=
| Absent
| Unreadable
| Text (content : text).

Inductive path := USERS_FILE | PROPERTIES_FILE | BOOKINGS_FILE | SUBSCRIPTIONS_FILE.

Record store := {
  users_json : file;
  properties_json : file;
  bookings_json : file;
  subscriptions_json : file;
}.

Definition file_at (st : store) (p : path) : file :=
  match p with
  | USERS_FILE => users_json st
  | PROPERTIES_FILE => properties_json st
  | BOOKINGS_FILE => bookings_json st
  | SUBSCRIPTIONS_FILE => subscriptions_json st
  end.

Definition put_file (st : store) (p : path) (f : file) : store :=
  match p with
  | USERS_FILE =>
      {| users_json := f; properties_json := properties_json st;
         bookings_json := bookings_json st; subscriptions_json := subscriptions_json st |}
  | PROPERTIES_FILE =>
      {| users_json := users_json st; properties_json := f;
         bookings_json := bookings_json st; subscriptions_json := subscriptions_json st |}
  | BOOKINGS_FILE =>
      {| users_json := users_json st; properties_json := properties_json st;
         bookings_json := f; subscriptions_json := subscriptions_json st |}
  | SUBSCRIPTIONS_FILE =>
      {| users_json := users_json st; properties_json := properties_json st;
         bookings_json := bookings_json st; subscriptions_json := f |}
  end.

#[global] Instance path_eq_dec : EqDecision path.
Proof. solve_decision. Defined.

(** [fs.readFile(file, "utf-8")]; [None] when it throws. *)
Definition fs_readFile (f : file) : option text :=
  match f with
  | Absent | Unreadable => None
  | Text t => Some t
  end.

(** [JSON.parse(data)]; [None] when it throws. *)
Definition JSON_parse (t : text) : option (list obj) :=
  match t with
  | Malformed _ => None
  | Encoded records => Some records
  end.

(** [JSON.stringify(data, null, 2)] *)
Definition JSON_stringify (data : list obj) : text := Encoded data.

(** [readData]: the [try] block is the bind, the [catch] block the
    default. *)
Definition readData (st : store) (p : path) : list obj :=
  default [] (fs_readFile (file_at st p) ≫= JSON_parse).

(** [writeData] *)
Definition writeData (st : store) (p : path) (data : list obj) : store :=
  put_file st p (Text (JSON_stringify data)).

(** The files as [initData] creates them. *)
Definition init_store : store :=
  {| users_json := Text (JSON_stringify []);
     properties_json := Text (JSON_stringify []);
     bookings_json := Text (JSON_stringify []);
     subscriptions_json := Text (JSON_stringify []) |}.

End Store.
Export Store.

#[global] Arguments readData : simpl never.
#[global] Arguments writeData : simpl never.
#[global] Arguments field : simpl never.
#[global] Arguments set_field : simpl never.
#[global] Arguments object_literal : simpl never.
#[global] Arguments spread : simpl never.
#[global] Arguments toISOString : simpl never.
#[global] Arguments parseISO : simpl never.

(** ** Replies *)

(** The error replies of the server, under the names of the error taxonomy.
    The comment gives the HTTP status the handler sends. *)
Inductive failure :=
| Unauthenticated        (* 401, no bearer token *)
| InvalidCredential      (* 403, the token does not verify *)
| SubscriptionRequired   (* 403, no active subscription *)
| SubscriptionExpired    (* 403, the active subscription has run out *)
| ValidationError        (* 400, a required field is missing *)
| EmailTaken             (* 400 *)
| BadCredentials         (* 401 *)
| InvalidPlan            (* 400, unknown plan *)
| NotFound               (* 404 *)
| PlanLimitExceeded      (* 403, basic plan listing cap *)
| Forbidden              (* 403, the caller does not own the record *)
| DatesUnavailable       (* 400, booking conflict *)
| InternalError          (* 500, the handler's [catch] block *).

Definition http_status (e : failure) : Z :=
  match e with
  | Unauthenticated | BadCredentials => 401
  | InvalidCredential | SubscriptionRequired | SubscriptionExpired
  | PlanLimitExceeded | Forbidden => 403
  | ValidationError | EmailTaken | InvalidPlan | DatesUnavailable => 400
  | NotFound => 404
  | InternalError => 500
  end.

(** What a successful reply carries. *)
Inductive payload :=
| Message                          (* a message alone *)
| Plans                            (* the static plan catalogue *)
| OneRecord (r : obj)              (* a record, alone or beside a message *)
| ManyRecords (l : list obj)       (* an array of records *)
| Session (user : obj)             (* message, token and public user fields *)
| SubscriptionOf (s : option obj)  (* [{ subscription: s }], [null] for [None] *).

Inductive reply :=
| Fail (e : failure)
| Send (code : Z) (p : payload).

(** The outcome of [authenticateToken]'s reading of the Authorization
    header and of [jwt.verify]. *)
Inductive credential :=
| NoToken
| BadToken
| Token (userId : string).

(** ** The server *)

Module Server.
Section Handlers.
Context `{rt : JsRuntime}.

(** A handler runs on the store and leaves a store and a reply. *)
Definition handler : Type := store -> store * reply.

(** [authenticateToken]: calls [next] with [req.user.userId]. *)
Definition authenticateToken (c : credential) (next : string -> handler) : handler :=
  fun st =>
    match c with
    | NoToken => (st, Fail Unauthenticated)
    | BadToken => (st, Fail InvalidCredential)
    | Token userId => next userId st
    end.

(** [sub.userId === req.user.userId && sub.status === "active"] *)
Definition is_active_for (userId : string) (sub : obj) : bool :=
  strict_eq (field sub "userId") (JStr userId) &&
  strict_eq (field sub "status") (JStr "active").

(** [checkSubscription]: calls [next] with [req.subscription]; [now] is
    its reading of the clock. *)
Definition checkSubscription (userId : string) (now : Z) (next : obj -> handler) : handler :=
  fun st =>
    let subscriptions := readData st SUBSCRIPTIONS_FILE in
    match find_ref (is_active_for userId) subscriptions with
    | None => (st, Fail SubscriptionRequired)
    | Some (i, userSubscription) =>
        let expiryDate := newDate (field userSubscription "expiresAt") in
        if date_lt expiryDate (Some now) then
          let expired := set_field "status" (JStr "expired") userSubscription in
          (writeData st SUBSCRIPTIONS_FILE (<[i := expired]> subscriptions),
           Fail SubscriptionExpired)
        else next userSubscription st
    end.

(** The gate lets the request through with [subscription] attached: the
    first active record of the user is [subscription] and its expiry date
    is not before the gate's reading of the clock. *)
Definition gate_passes (st : store) (userId : string) (now : Z) (subscription : obj) : Prop :=
  exists i : nat,
    find_ref (is_active_for userId) (readData st SUBSCRIPTIONS_FILE) = Some (i, subscription) /\
    date_lt (newDate (field subscription "expiresAt")) (Some now) = false.

(** The public fields of a user record. *)
Definition user_view (user : obj) : obj :=
  object_literal [("id", field user "id"); ("email", field user "email");
                  ("name", field user "name"); ("role", field user "role")].

(** POST /api/auth/register.  [hashed] is the result of [bcrypt.hash],
    [None] when it throws. *)
Definition register (body : obj) (hashed : option string) (id : string) (now : Z) : handler :=
  fun st =>
    let email := field body "email" in
    let password := field body "password" in
    let name := field body "name" in
    if negb (truthy email) || negb (truthy password) || negb (truthy name) then
      (st, Fail ValidationError)
    else
      let users := readData st USERS_FILE in
      match find (fun u => strict_eq (field u "email") email) users with
      | Some _ => (st, Fail EmailTaken)
      | None =>
          match hashed with
          | None => (st, Fail InternalError)
          | Some hashedPassword =>
              let newUser := object_literal
                [("id", JStr id); ("email", email); ("password", JStr hashedPassword);
                 ("name", name); ("role", JStr "user");
                 ("createdAt", JStr (toISOString now))] in
              (writeData st USERS_FILE (users ++ [newUser]),
               Send 201 (Session (user_view newUser)))
          end
      end.

(** POST /api/auth/login *)
Definition login (body : obj) : handler :=
  fun st =>
    let email := field body "email" in
    let password := field body "password" in
    if negb (truthy email) || negb (truthy password) then (st, Fail ValidationError)
    else
      match find (fun u => strict_eq (field u "email") email) (readData st USERS_FILE) with
      | None => (st, Fail BadCredentials)
      | Some user =>
          match bcrypt_compare password (field user "password") with
          | None => (st, Fail InternalError)
          | Some false => (st, Fail BadCredentials)
          | Some true => (st, Send 200 (Session (user_view user)))
          end
      end.

(** GET /api/auth/me *)
Definition me (userId : string) : handler :=
  fun st =>
    match find (fun u => strict_eq (field u "id") (JStr userId)) (readData st USERS_FILE) with
    | None => (st, Fail NotFound)
    | Some user => (st, Send 200 (OneRecord (user_view user)))
    end.

(** The plan table of the subscribe handler. *)
Record plan := { plan_id : string; plan_price : Q; plan_duration : Z }.

Definition plans : list plan :=
  [ {| plan_id := "basic"; plan_price := 999 # 100; plan_duration := 30 |};
    {| plan_id := "premium"; plan_price := 1999 # 100; plan_duration := 30 |};
    {| plan_id := "enterprise"; plan_price := 4999 # 100; plan_duration := 30 |} ].

(** GET /api/subscriptions/plans *)
Definition getPlans : handler := fun st => (st, Send 200 Plans).

(** GET /api/subscriptions/my *)
Definition mySubscription (userId : string) : handler :=
  fun st =>
    (st, Send 200 (SubscriptionOf
       (find (fun sub => strict_eq (field sub "userId") (JStr userId))
             (readData st SUBSCRIPTIONS_FILE)))).

(** The four assignments of the renewal branch of subscribe. *)
Definition renew (planId : jsval) (plan : plan) (now expiresAt : Z)
    (existingSubscription : obj) : obj :=
  set_field "updatedAt" (JStr (toISOString now))
    (set_field "expiresAt" (JStr (toISOString expiresAt))
       (set_field "price" (JNum (plan_price plan))
          (set_field "planId" planId existingSubscription))).

(** The object literal of the creation branch of subscribe. *)
Definition new_subscription (id userId : string) (planId : jsval) (plan : plan)
    (now expiresAt : Z) : obj :=
  object_literal
    [("id", JStr id); ("userId", JStr userId); ("planId", planId);
     ("price", JNum (plan_price plan)); ("status", JStr "active");
     ("createdAt", JStr (toISOString now));
     ("expiresAt", JStr (toISOString expiresAt));
     ("updatedAt", JStr (toISOString now))].

(** POST /api/subscriptions/subscribe, after [authenticateToken]. *)
Definition subscribe (userId : string) (body : obj) (id : string) (now : Z) : handler :=
  fun st =>
    let planId := field body "planId" in
    if negb (truthy planId) then (st, Fail ValidationError)
    else
      match find (fun p => strict_eq (JStr (plan_id p)) planId) plans with
      | None => (st, Fail InvalidPlan)
      | Some plan =>
          let subscriptions := readData st SUBSCRIPTIONS_FILE in
          let expiresAt := addDays now (plan_duration plan) in
          match find_ref (is_active_for userId) subscriptions with
          | Some (i, existingSubscription) =>
              let renewed := renew planId plan now expiresAt existingSubscription in
              (writeData st SUBSCRIPTIONS_FILE (<[i := renewed]> subscriptions),
               Send 200 (SubscriptionOf (Some renewed)))
          | None =>
              let newSubscription := new_subscription id userId planId plan now expiresAt in
              let subscriptions' := subscriptions ++ [newSubscription] in
              (writeData st SUBSCRIPTIONS_FILE subscriptions',
               Send 200 (SubscriptionOf
                 (subscriptions' !! (length subscriptions' - 1)%nat)))
          end
      end.

(** GET /api/properties *)
Definition listProperties : handler :=
  fun st => (st, Send 200 (ManyRecords (readData st PROPERTIES_FILE))).

(** GET /api/properties/:id *)
Definition getProperty (id : string) : handler :=
  fun st =>
    match find (fun p => strict_eq (field p "id") (JStr id)) (readData st PROPERTIES_FILE) with
    | None => (st, Fail NotFound)
    | Some property => (st, Send 200 (OneRecord property))
    end.

(** [p.ownerId === req.user.userId] *)
Definition owned_by (userId : string) (p : obj) : bool :=
  strict_eq (field p "ownerId") (JStr userId).

(** POST /api/properties, after the two middlewares.  [created] and
    [updated] are the two readings of the clock. *)
Definition createProperty (userId : string) (subscription : obj) (body : obj)
    (id : string) (created updated : Z) : handler :=
  fun st =>
    let title := field body "title" in
    let location := field body "location" in
    let price := field body "price" in
    if negb (truthy title) || negb (truthy location) || negb (truthy price) then
      (st, Fail ValidationError)
    else if strict_eq (field subscription "planId") (JStr "basic") &&
            (3 <=? length (filter (fun p => owned_by userId p = true)
                                  (readData st PROPERTIES_FILE)))%nat then
      (st, Fail PlanLimitExceeded)
    else
      let properties := readData st PROPERTIES_FILE in
      let newProperty := object_literal
        [("id", JStr id); ("ownerId", JStr userId); ("title", title);
         ("description", or_else (field body "description") (JStr ""));
         ("location", location);
         ("price", parseFloat price);
         ("type", or_else (field body "type") (JStr "apartment"));
         ("bedrooms", or_else (parseInt (field body "bedrooms")) (JNum 1));
         ("bathrooms", or_else (parseInt (field body "bathrooms")) (JNum 1));
         ("guests", or_else (parseInt (field body "guests")) (JNum 2));
         ("amenities", or_else (field body "amenities") (JArr []));
         ("images", or_else (field body "images") (JArr []));
         ("rating", JNum 0); ("reviews", JNum 0); ("instant", JBool false);
         ("premium", JBool (negb (strict_eq (field subscription "planId") (JStr "basic"))));
         ("createdAt", JStr (toISOString created));
         ("updatedAt", JStr (toISOString updated))] in
      (writeData st PROPERTIES_FILE (properties ++ [newProperty]),
       Send 201 (OneRecord newProperty)).

(** PUT /api/properties/:id, after the two middlewares. *)
Definition updateProperty (userId : string) (id : string) (body : obj) (now : Z) : handler :=
  fun st =>
    let properties := readData st PROPERTIES_FILE in
    match find_ref (fun p => strict_eq (field p "id") (JStr id)) properties with
    | None => (st, Fail NotFound)
    | Some (propertyIndex, property) =>
        if negb (owned_by userId property) then (st, Fail Forbidden)
        else
          let updatedProperty :=
            set_field "updatedAt" (JStr (toISOString now))
              (set_field "ownerId" (field property "ownerId")
                 (set_field "id" (field property "id")
                    (spread property body))) in
          (writeData st PROPERTIES_FILE (<[propertyIndex := updatedProperty]> properties),
           Send 200 (OneRecord updatedProperty))
    end.

(** DELETE /api/properties/:id, after the two middlewares. *)
Definition deleteProperty (userId : string) (id : string) : handler :=
  fun st =>
    let properties := readData st PROPERTIES_FILE in
    match find_ref (fun p => strict_eq (field p "id") (JStr id)) properties with
    | None => (st, Fail NotFound)
    | Some (propertyIndex, property) =>
        if negb (owned_by userId property) then (st, Fail Forbidden)
        else (writeData st PROPERTIES_FILE (splice1 propertyIndex properties),
              Send 200 Message)
    end.

(** GET /api/properties/my/listings, after the two middlewares. *)
Definition myListings (userId : string) : handler :=
  fun st =>
    (st, Send 200 (ManyRecords
       (filter (fun p => owned_by userId p = true) (readData st PROPERTIES_FILE)))).

(** The overlap test of the booking handler: [b] is an existing booking,
    the dates are those of the request. *)
Definition conflicts (propertyId : jsval) (checkInDate checkOutDate : option Z)
    (b : obj) : bool :=
  if negb (strict_eq (field b "propertyId") propertyId) ||
     negb (strict_eq (field b "status") (JStr "confirmed")) then false
  else
    let bCheckIn := newDate (field b "checkIn") in
    let bCheckOut := newDate (field b "checkOut") in
    (date_ge checkInDate bCheckIn && date_lt checkInDate bCheckOut) ||
    (date_gt checkOutDate bCheckIn && date_le checkOutDate bCheckOut) ||
    (date_le checkInDate bCheckIn && date_ge checkOutDate bCheckOut).

(** POST /api/bookings, after [authenticateToken].  [toISOString] throws
    on an invalid date, which the [catch] block turns into a 500. *)
Definition createBooking (userId : string) (body : obj) (id : string) (now : Z) : handler :=
  fun st =>
    let propertyId := field body "propertyId" in
    let checkIn := field body "checkIn" in
    let checkOut := field body "checkOut" in
    let bookingGuests := field body "guests" in
    if negb (truthy propertyId) || negb (truthy checkIn) || negb (truthy checkOut) then
      (st, Fail ValidationError)
    else
      match find (fun p => strict_eq (field p "id") propertyId) (readData st PROPERTIES_FILE) with
      | None => (st, Fail NotFound)
      | Some property =>
          let bookings := readData st BOOKINGS_FILE in
          let checkInDate := newDate checkIn in
          let checkOutDate := newDate checkOut in
          match find (conflicts propertyId checkInDate checkOutDate) bookings with
          | Some conflictingBooking => (st, Fail DatesUnavailable)
          | None =>
              let nights := nights_between checkInDate checkOutDate in
              let totalPrice := times (field property "price") nights in
              match checkInDate, checkOutDate with
              | Some checkInTime, Some checkOutTime =>
                  let newBooking := object_literal
                    [("id", JStr id); ("propertyId", propertyId); ("userId", JStr userId);
                     ("checkIn", JStr (toISOString checkInTime));
                     ("checkOut", JStr (toISOString checkOutTime));
                     ("guests", or_else (parseInt bookingGuests) (field property "guests"));
                     ("totalPrice", totalPrice);
                     ("status", JStr (if truthy (field property "instant")
                                      then "confirmed" else "pending"));
                     ("createdAt", JStr (toISOString now))] in
                  (writeData st BOOKINGS_FILE (bookings ++ [newBooking]),
                   Send 201 (OneRecord newBooking))
              | _, _ => (st, Fail InternalError)
              end
          end
      end.

(** GET /api/bookings/my *)
Definition myBookings (userId : string) : handler :=
  fun st =>
    (st, Send 200 (ManyRecords
       (filter (fun b => strict_eq (field b "userId") (JStr userId) = true)
               (readData st BOOKINGS_FILE)))).

(** GET /api/bookings/my/properties, after the two middlewares. *)
Definition propertyBookings (userId : string) : handler :=
  fun st =>
    let userPropertyIds :=
      (fun p => field p "id") <$>
        filter (fun p => owned_by userId p = true) (readData st PROPERTIES_FILE) in
    (st, Send 200 (ManyRecords
       (filter (fun b => existsb (strict_eq (field b "propertyId")) userPropertyIds = true)
               (readData st BOOKINGS_FILE)))).

(** PUT /api/bookings/:id/status, after the two middlewares. *)
Definition updateBookingStatus (userId : string) (id : string) (body : obj) : handler :=
  fun st =>
    let status := field body "status" in
    let bookings := readData st BOOKINGS_FILE in
    match find_ref (fun b => strict_eq (field b "id") (JStr id)) bookings with
    | None => (st, Fail NotFound)
    | Some (bookingIndex, booking) =>
        match find (fun p => strict_eq (field p "id") (field booking "propertyId"))
                   (readData st PROPERTIES_FILE) with
        | None => (st, Fail Forbidden)
        | Some property =>
            if negb (owned_by userId property) then (st, Fail Forbidden)
            else
              let updated := set_field "status" status booking in
              (writeData st BOOKINGS_FILE (<[bookingIndex := updated]> bookings),
               Send 200 (OneRecord updated))
        end
    end.

(** ** Routes *)

(** A request: the route, the outcome of token verification where the
    route asks for a token, the parameters and body, and what the
    handler draws from the environment (identifiers, clock readings;
    [gate] is the clock reading of [checkSubscription]). *)
Inductive request :=
| Register (body : obj) (hashed : option string) (id : string) (now : Z)
| Login (body : obj)
| Me (c : credential)
| GetPlans
| MySubscription (c : credential)
| Subscribe (c : credential) (body : obj) (id : string) (now : Z)
| ListProperties
| GetProperty (id : string)
| CreateProperty (c : credential) (gate : Z) (body : obj) (id : string) (created updated : Z)
| UpdateProperty (c : credential) (gate : Z) (id : string) (body : obj) (now : Z)
| DeleteProperty (c : credential) (gate : Z) (id : string)
| MyListings (c : credential) (gate : Z)
| CreateBooking (c : credential) (body : obj) (id : string) (now : Z)
| MyBookings (c : credential)
| PropertyBookings (c : credential) (gate : Z)
| UpdateBookingStatus (c : credential) (gate : Z) (id : string) (body : obj).

(** The routing table, each route with its middlewares. *)
Definition serve (r : request) : handler :=
  match r with
  | Register body hashed id now => register body hashed id now
  | Login body => login body
  | Me c => authenticateToken c me
  | GetPlans => getPlans
  | MySubscription c => authenticateToken c mySubscription
  | Subscribe c body id now =>
      authenticateToken c (fun userId => subscribe userId body id now)
  | ListProperties => listProperties
  | GetProperty id => getProperty id
  | CreateProperty c gate body id created updated =>
      authenticateToken c (fun userId =>
        checkSubscription userId gate (fun subscription =>
          createProperty userId subscription body id created updated))
  | UpdateProperty c gate id body now =>
      authenticateToken c (fun userId =>
        checkSubscription userId gate (fun _ => updateProperty userId id body now))
  | DeleteProperty c gate id =>
      authenticateToken c (fun userId =>
        checkSubscription userId gate (fun _ => deleteProperty userId id))
  | MyListings c gate =>
      authenticateToken c (fun userId =>
        checkSubscription userId gate (fun _ => myListings userId))
  | CreateBooking c body id now =>
      authenticateToken c (fun userId => createBooking userId body id now)
  | MyBookings c => authenticateToken c myBookings
  | PropertyBookings c gate =>
      authenticateToken c (fun userId =>
        checkSubscription userId gate (fun _ => propertyBookings userId))
  | UpdateBookingStatus c gate id body =>
      authenticateToken c (fun userId =>
        checkSubscription userId gate (fun _ => updateBookingStatus userId id body))
  end.

(** The store after a sequence of requests, served one after the other. *)
Definition run (rs : list request) (st : store) : store :=
  foldl (fun st r => (serve r st).1) st rs.

(** The stores that the server can reach from the files of [initData]. *)
Inductive reachable : store -> Prop :=
| reachable_init : reachable init_store
| reachable_serve st r : reachable st -> reachable (serve r st).1.

(** ** Writes that fail *)

(** The file that a request rewrites, read off its reply.  Each handler
    calls [writeData] at most once, as its last step before the reply of
    success, and [checkSubscription] calls it once, before it answers that
    the subscription has run out; the other replies are sent without a
    write. *)
Definition written (r : request) (answer : reply) : option path :=
  match answer with
  | Send _ _ =>
      match r with
      | Register _ _ _ _ => Some USERS_FILE
      | Subscribe _ _ _ _ => Some SUBSCRIPTIONS_FILE
      | CreateProperty _ _ _ _ _ _ | UpdateProperty _ _ _ _ _ | DeleteProperty _ _ _ =>
          Some PROPERTIES_FILE
      | CreateBooking _ _ _ _ | UpdateBookingStatus _ _ _ _ => Some BOOKINGS_FILE
      | _ => None
      end
  | Fail SubscriptionExpired => Some SUBSCRIPTIONS_FILE
  | Fail _ => None
  end.

(** The server on a disk where [fs.writeFile] fails on the paths [refused]
    (a directory stands at the path, or the data directory is missing or
    read-only).  [writeData] then throws, the [catch] block of the handler,
    or of [checkSubscription], answers 500, and the files are as they were.
    [serve] is the server on a disk that refuses no write. *)
Definition serve_refusing (refused : path -> bool) (r : request) : handler :=
  fun st =>
    let outcome := serve r st in
    match written r outcome.2 with
    | Some p => if refused p then (st, Fail InternalError) else outcome
    | None => outcome
    end.

End Handlers.
End Server.
Export Server.


(** ** The subscription invariant *)

(** One for [true], zero for [false]. *)
Definition bit (b : bool) : nat := if b then 1%nat else 0%nat.

(** The number of records with status "active" that a user has. *)
Definition active_count (userId : string) (subscriptions : list obj) : nat :=
  length (filter (fun sub => is_active_for userId sub = true) subscriptions).

(** No user has two subscription records with status "active". *)
Definition one_active_per_user (subscriptions : list obj) : Prop :=
  forall userId : string, (active_count userId subscriptions <= 1)%nat.

(** A request that is not a subscribe of the user [userId]. *)
Definition not_subscribe_of (userId : string) (r : request) : Prop :=
  forall body id now, r <> Subscribe (Token userId) body id now.

(** ** Read failures *)

(** The file is absent, cannot be read, or holds text that does not
    parse. *)
Definition read_failure (f : file) : Prop :=
  match f with
  | Absent | Unreadable | Text (Malformed _) => True
  | Text (Encoded _) => False
  end.

(** ** The conflict rule in the words of the specification *)

(** Two half-open intervals [[a,b)] and [[c,d)] conflict iff [a < d] and
    [c < b]. *)
Definition half_open_conflict (a b c d : Z) : Prop := a < d /\ c < b.

(** ** Sample data for the worked examples *)

Module Scenario.

(** Midnight UTC of a calendar day. *)
Definition day (y m d : Z) : Z := utc y m d 0 0 0 0.

(** The host "u1" holds a basic subscription until the end of January
    2024 and owns three listings; the guest "u2" has a confirmed
    booking of "p1" from 10 to 15 January 2024. *)
Definition basic_subscription : obj := object_literal
  [("id", JStr "s1"); ("userId", JStr "u1"); ("planId", JStr "basic");
   ("price", JNum (999 # 100)); ("status", JStr "active");
   ("createdAt", JStr "2024-01-01T00:00:00.000Z");
   ("expiresAt", JStr "2024-01-31T00:00:00.000Z");
   ("updatedAt", JStr "2024-01-01T00:00:00.000Z")].

Definition listing (id : string) (instant : bool) : obj := object_literal
  [("id", JStr id); ("ownerId", JStr "u1"); ("title", JStr "Flat");
   ("description", JStr ""); ("location", JStr "Riga"); ("price", JNum 50);
   ("type", JStr "apartment"); ("bedrooms", JNum 1); ("bathrooms", JNum 1);
   ("guests", JNum 2); ("amenities", JArr []); ("images", JArr []);
   ("rating", JNum 0); ("reviews", JNum 0); ("instant", JBool instant);
   ("premium", JBool false);
   ("createdAt", JStr "2024-01-02T00:00:00.000Z");
   ("updatedAt", JStr "2024-01-02T00:00:00.000Z")].

Definition booking_A : obj := object_literal
  [("id", JStr "b1"); ("propertyId", JStr "p1"); ("userId", JStr "u2");
   ("checkIn", JStr "2024-01-10T00:00:00.000Z");
   ("checkOut", JStr "2024-01-15T00:00:00.000Z");
   ("guests", JNum 2); ("totalPrice", JNum 250); ("status", JStr "confirmed");
   ("createdAt", JStr "2024-01-03T00:00:00.000Z")].

Definition sample_store : store :=
  {| users_json := Text (Encoded []);
     properties_json :=
       Text (Encoded [listing "p1" true; listing "p2" false; listing "p3" false]);
     bookings_json := Text (Encoded [booking_A]);
     subscriptions_json := Text (Encoded [basic_subscription]) |}.

(** A complete listing form, and the same form with a price of zero. *)
Definition listing_form (price : jsval) : obj := object_literal
  [("title", JStr "Loft"); ("location", JStr "Riga"); ("price", price)].

(** A booking form for "p1". *)
Definition booking_form (checkIn checkOut : string) : obj := object_literal
  [("propertyId", JStr "p1"); ("checkIn", JStr checkIn); ("checkOut", JStr checkOut)].

End Scenario.

(** * Properties *)

(** ** Dates *)

Example toISOString_epoch : toISOString 0 = "1970-01-01T00:00:00.000Z".
Proof. reflexivity. Qed.

Example toISOString_sample :
  toISOString 1705329825123 = "2024-01-15T14:43:45.123Z".
Proof. reflexivity. Qed.

Example parseISO_date : parseISO "2024-01-10" = Some 1704844800000.
Proof. reflexivity. Qed.

Example parseISO_roundtrip_sample :
  parseISO (toISOString 1705329825123) = Some 1705329825123.
Proof. reflexivity. Qed.

Example parseISO_rejects : parseISO "2024-02-30" = None /\ parseISO "10 Jan 2024" = None.
Proof. vm_compute. split; reflexivity. Qed.

(** ** Values and records *)

Lemma strict_eq_JStr_r (v : jsval) (s : string) :
  strict_eq v (JStr s) = true <-> v = JStr s.
Proof.
  destruct v; simpl; try (split; [discriminate | congruence]).
  rewrite String.eqb_eq. split; congruence.
Qed.

Lemma strict_eq_JStr_l (v : jsval) (s : string) :
  strict_eq (JStr s) v = true <-> v = JStr s.
Proof.
  destruct v; simpl; try (split; [discriminate | congruence]).
  rewrite String.eqb_eq. split; congruence.
Qed.

Lemma strict_eq_JStr_refl (s : string) : strict_eq (JStr s) (JStr s) = true.
Proof. by apply strict_eq_JStr_r. Qed.

Lemma field_set_field (k k' : string) (v : jsval) (o : obj) :
  field (set_field k v o) k' = if decide (k = k') then json_value v else field o k'.
Proof.
  unfold field, set_field.
  destruct v; rewrite ?lookup_delete, ?lookup_insert; by case_decide.
Qed.

Lemma field_set_field_eq (k : string) (v : jsval) (o : obj) :
  field (set_field k v o) k = json_value v.
Proof. rewrite field_set_field. by case_decide. Qed.

Lemma field_set_field_ne (k k' : string) (v : jsval) (o : obj) :
  k <> k' -> field (set_field k v o) k' = field o k'.
Proof. intros. rewrite field_set_field. by case_decide. Qed.

Lemma field_spread (a b : obj) (k : string) :
  field (spread a b) k = match b !! k with Some v => v | None => field a k end.
Proof.
  unfold field, spread. rewrite lookup_union.
  destruct (b !! k), (a !! k); reflexivity.
Qed.

(** The value that an object literal gives a key is the one of its last
    occurrence. *)
Lemma field_object_literal_snoc (kvs : list (string * jsval)) (k' : string) (v : jsval)
    (k : string) :
  field (object_literal (kvs ++ [(k', v)])) k =
  if decide (k' = k) then json_value v else field (object_literal kvs) k.
Proof.
  unfold object_literal. rewrite foldl_app. simpl. apply field_set_field.
Qed.

Lemma field_object_literal (kvs : list (string * jsval)) (k : string) :
  field (object_literal kvs) k =
  match find (fun kv => String.eqb kv.1 k) (rev kvs) with
  | Some kv => json_value kv.2
  | None => JUndefined
  end.
Proof.
  induction kvs as [|[k' v] kvs IH] using rev_ind; [done|].
  rewrite field_object_literal_snoc, rev_unit. simpl.
  case_decide as Hk.
  - subst. by rewrite String.eqb_refl.
  - apply String.eqb_neq in Hk. by rewrite Hk.
Qed.

(** ** Searching an array *)

Section Find.
Context {A : Type} (f : A -> bool).

Lemma find_ref_Some (l : list A) (i : nat) (x : A) :
  find_ref f l = Some (i, x) ->
  l !! i = Some x /\ f x = true /\
  forall j y, (j < i)%nat -> l !! j = Some y -> f y = false.
Proof.
  revert i. induction l as [|a l IH]; intros i; simpl; [discriminate|].
  destruct (f a) eqn:Ha.
  - intros [= <- <-]. repeat split; [done|]. intros j y Hj. lia.
  - destruct (find_ref f l) as [[i' x']|] eqn:Hl; simpl; [|discriminate].
    intros [= <- <-]. destruct (IH i' eq_refl) as (Hx & Hfx & Hlt).
    repeat split; [done..|]. intros [|j] y Hj; simpl.
    + by intros [= <-].
    + apply Hlt. lia.
Qed.

Lemma find_ref_None (l : list A) :
  find_ref f l = None <-> forall x, x ∈ l -> f x = false.
Proof.
  induction l as [|a l IH]; simpl.
  - split; [|done]. intros _ x Hx. by apply elem_of_nil in Hx.
  - destruct (f a) eqn:Ha.
    + split; [discriminate|]. intros H. rewrite H in Ha; [done|left].
    + destruct (find_ref f l) as [[i x]|]; simpl.
      * split; [discriminate|]. intros H.
        assert (Some (i, x) = None) as Habs; [|done].
        apply IH. intros y Hy. apply H. by right.
      * split; [|done]. intros _ x Hx.
        apply elem_of_cons in Hx as [->|Hx]; [done|]. by apply IH.
Qed.

Lemma find_find_ref (l : list A) : find f l = snd <$> find_ref f l.
Proof.
  induction l as [|a l IH]; simpl; [done|].
  destruct (f a); [done|]. rewrite IH. by destruct (find_ref f l) as [[??]|].
Qed.

Lemma find_Some (l : list A) (x : A) :
  find f l = Some x -> x ∈ l /\ f x = true.
Proof.
  rewrite find_find_ref. destruct (find_ref f l) as [[i y]|] eqn:H; [|done].
  intros [= <-]. apply find_ref_Some in H as (H & Hf & _).
  split; [|done]. by eapply list_elem_of_lookup_2.
Qed.

Lemma find_None (l : list A) :
  find f l = None <-> forall x, x ∈ l -> f x = false.
Proof.
  rewrite find_find_ref, <- find_ref_None.
  destruct (find_ref f l); simpl; split; congruence.
Qed.

Lemma find_is_Some (l : list A) :
  is_Some (find f l) <-> exists x, x ∈ l /\ f x = true.
Proof.
  split.
  - intros [x Hx]. exists x. by apply find_Some.
  - intros (x & Hx & Hfx). destruct (find f l) eqn:H; [by eexists|].
    rewrite find_None in H. rewrite (H x Hx) in Hfx. discriminate.
Qed.

(** In terms of [filter]: nothing is found exactly when nothing passes. *)
Lemma find_ref_None_filter (l : list A) :
  find_ref f l = None <-> filter (fun x => f x = true) l = [].
Proof.
  induction l as [|a l IH]; simpl; [done|].
  rewrite filter_cons. destruct (f a) eqn:Ha.
  - rewrite decide_True by done. split; discriminate.
  - rewrite decide_False by congruence. rewrite <- IH.
    destruct (find_ref f l) as [[??]|]; simpl; split; congruence.
Qed.

Lemma find_ref_insert (l : list A) (i : nat) (x y : A) :
  find_ref f l = Some (i, x) -> f y = true ->
  find_ref f (<[i := y]> l) = Some (i, y).
Proof.
  revert i. induction l as [|a l IH]; intros i; simpl; [discriminate|].
  destruct (f a) eqn:Ha.
  - intros [= <- <-] Hy. simpl. by rewrite Hy.
  - destruct (find_ref f l) as [[i' x']|] eqn:Hl; simpl; [|discriminate].
    intros [= <- <-] Hy. simpl. by rewrite Ha, (IH i' eq_refl Hy).
Qed.

Lemma find_ref_snoc (l : list A) (x : A) :
  find_ref f l = None -> f x = true ->
  find_ref f (l ++ [x]) = Some (length l, x).
Proof.
  induction l as [|a l IH]; simpl.
  - intros _ ->. done.
  - destruct (f a); [discriminate|].
    destruct (find_ref f l) as [[??]|]; simpl; [discriminate|].
    intros _ Hx. by rewrite (IH eq_refl Hx).
Qed.

Lemma lookup_last_snoc (l : list A) (x : A) :
  (l ++ [x]) !! (length (l ++ [x]) - 1)%nat = Some x.
Proof.
  rewrite length_app. simpl.
  replace (length l + 1 - 1)%nat with (length l + 0)%nat by lia.
  by rewrite lookup_app_r, Nat.add_0_r, Nat.sub_diag by lia.
Qed.

End Find.

(** ** Files *)

Lemma readData_writeData (st : store) (p q : path) (data : list obj) :
  readData (writeData st p data) q = if decide (p = q) then data else readData st q.
Proof. by destruct p, q. Qed.

Lemma readData_writeData_eq (st : store) (p : path) (data : list obj) :
  readData (writeData st p data) p = data.
Proof. by destruct p. Qed.

Lemma readData_writeData_ne (st : store) (p q : path) (data : list obj) :
  p <> q -> readData (writeData st p data) q = readData st q.
Proof. by destruct p, q. Qed.

Lemma readData_init (p : path) : readData init_store p = [].
Proof. by destruct p. Qed.

(** ** The subscription gate *)

Section Gate.
Context `{rt : JsRuntime}.

Lemma checkSubscription_pass (st : store) (userId : string) (now : Z)
    (subscription : obj) (next : obj -> handler) :
  gate_passes st userId now subscription ->
  checkSubscription userId now next st = next subscription st.
Proof.
  intros (i & Hfind & Hdate). unfold checkSubscription. by rewrite Hfind, Hdate.
Qed.

Lemma checkSubscription_required (st : store) (userId : string) (now : Z)
    (next : obj -> handler) :
  find_ref (is_active_for userId) (readData st SUBSCRIPTIONS_FILE) = None ->
  checkSubscription userId now next st = (st, Fail SubscriptionRequired).
Proof. intros H. unfold checkSubscription. by rewrite H. Qed.

(** Behind a gate that passes, each gated route is its handler. *)
Lemma serve_behind_the_gate (st : store) (userId : string) (gate : Z) (subscription : obj) :
  gate_passes st userId gate subscription ->
  (forall body id created updated,
     serve (CreateProperty (Token userId) gate body id created updated) st
     = createProperty userId subscription body id created updated st) /\
  (forall id body now,
     serve (UpdateProperty (Token userId) gate id body now) st
     = updateProperty userId id body now st) /\
  (forall id,
     serve (DeleteProperty (Token userId) gate id) st = deleteProperty userId id st) /\
  serve (MyListings (Token userId) gate) st = myListings userId st /\
  serve (PropertyBookings (Token userId) gate) st = propertyBookings userId st /\
  (forall id body,
     serve (UpdateBookingStatus (Token userId) gate id body) st
     = updateBookingStatus userId id body st).
Proof.
  intros Hgate. repeat split; intros; simpl; by rewrite (checkSubscription_pass _ _ _ _ _ Hgate).
Qed.

End Gate.

(** ** Listing creation *)

Section Listings.
Context `{rt : JsRuntime}.

(** C10: the required-field check of listing creation is a truthiness
    test and the first thing the handler does.  A creation request whose
    title, location or price is falsy is answered with ValidationError and
    the store is left as it was, whatever the attached plan is and however
    many listings the owner has; the number 0 and the empty string are
    falsy.  Behind a gate that passes, the route is this handler. *)
Theorem C10_required_fields_are_tested_for_truthiness :
  (forall (st : store) (userId : string) (subscription body : obj)
          (id : string) (created updated : Z),
     truthy (field body "title") = false \/
     truthy (field body "location") = false \/
     truthy (field body "price") = false ->
     createProperty userId subscription body id created updated st
     = (st, Fail ValidationError)) /\
  (forall (st : store) (userId : string) (gate : Z) (subscription body : obj)
          (id : string) (created updated : Z),
     gate_passes st userId gate subscription ->
     serve (CreateProperty (Token userId) gate body id created updated) st
     = createProperty userId subscription body id created updated st) /\
  truthy (JNum 0) = false /\ truthy (JStr "") = false.
Proof.
  split; [|split; [|done]].
  - intros st userId subscription body id created updated Hfalsy.
    unfold createProperty.
    destruct Hfalsy as [-> | [-> | ->]]; simpl; by rewrite ?orb_true_r.
  - intros st userId gate subscription body id created updated Hgate.
    apply (serve_behind_the_gate _ _ _ _ Hgate).
Qed.

(** C5: for a request that passed the required-field check, a basic-plan
    owner who already has three or more listings is answered with
    PlanLimitExceeded and nothing is created, and an owner whose plan is
    not "basic" gets the listing appended however many listings there are.
    Behind a gate that passes, the route is this handler; and no request at
    all is answered with PlanLimitExceeded unless the attached subscription
    is a basic one and the caller has three or more listings. *)
Theorem C5_basic_plan_listing_cap :
  (forall (st : store) (userId : string) (subscription body : obj)
          (id : string) (created updated : Z),
     truthy (field body "title") = true ->
     truthy (field body "location") = true ->
     truthy (field body "price") = true ->
     let properties := readData st PROPERTIES_FILE in
     let outcome := createProperty userId subscription body id created updated st in
     (field subscription "planId" = JStr "basic" ->
      (3 <= length (filter (fun p => owned_by userId p = true) properties))%nat ->
      outcome = (st, Fail PlanLimitExceeded)) /\
     (strict_eq (field subscription "planId") (JStr "basic") = false ->
      exists newProperty,
        outcome = (writeData st PROPERTIES_FILE (properties ++ [newProperty]),
                   Send 201 (OneRecord newProperty)) /\
        field newProperty "ownerId" = JStr userId /\
        field newProperty "id" = JStr id)) /\
  (forall (st : store) (userId : string) (gate : Z) (subscription body : obj)
          (id : string) (created updated : Z),
     gate_passes st userId gate subscription ->
     serve (CreateProperty (Token userId) gate body id created updated) st
     = createProperty userId subscription body id created updated st) /\
  (forall (st : store) (c : credential) (gate : Z) (body : obj) (id : string)
          (created updated : Z),
     (serve (CreateProperty c gate body id created updated) st).2
       = Fail PlanLimitExceeded ->
     exists userId subscription,
       c = Token userId /\
       gate_passes st userId gate subscription /\
       field subscription "planId" = JStr "basic" /\
       (3 <= length (filter (fun p => owned_by userId p = true)
                            (readData st PROPERTIES_FILE)))%nat).
Proof.
  split; [|split].
  - intros st userId subscription body id created updated.
    intros Ht Hl Hp properties outcome. subst outcome properties.
    unfold createProperty. rewrite Ht, Hl, Hp. cbn [negb orb]. split.
    + intros Hplan Hcount. rewrite Hplan, strict_eq_JStr_refl.
      apply Nat.leb_le in Hcount. by rewrite Hcount.
    + intros Hplan. rewrite Hplan. cbn [negb andb]. eexists. split; [reflexivity|].
      by rewrite !field_object_literal.
  - intros st userId gate subscription body id created updated Hgate.
    apply (serve_behind_the_gate _ _ _ _ Hgate).
  - intros st c gate body id created updated.
    destruct c as [| |userId]; simpl; try discriminate.
    unfold checkSubscription, createProperty.
    destruct (find_ref _ _) as [[i subscription]|] eqn:Hfind; [|discriminate].
    destruct (date_lt _ _) eqn:Hdate; [discriminate|].
    destruct (_ || _ || negb _); [discriminate|].
    destruct (strict_eq (field subscription "planId") _) eqn:Hplan; cbn [andb];
      [|discriminate].
    destruct (3 <=? _)%nat eqn:Hcount; [|discriminate].
    intros _. exists userId, subscription. split; [done|]. split; [by exists i|].
    split; [by apply strict_eq_JStr_r|]. by apply Nat.leb_le.
Qed.

End Listings.

(** The host of the sample store holds a basic subscription and three
    listings.  A fourth listing with a price of zero is refused by the
    required-field check; with a price of 80 it is refused by the cap. *)
Lemma C10_required_fields_witness :
  let request := CreateProperty (Token "u1") (Scenario.day 2024 1 20)
                   (Scenario.listing_form (JNum 0)) "p4"
                   (Scenario.day 2024 1 20) (Scenario.day 2024 1 20) in
  gate_passes (rt := utc_runtime) Scenario.sample_store "u1" (Scenario.day 2024 1 20)
    Scenario.basic_subscription /\
  serve (rt := utc_runtime) request Scenario.sample_store
    = (Scenario.sample_store, Fail ValidationError).
Proof.
  assert (gate_passes (rt := utc_runtime) Scenario.sample_store "u1"
            (Scenario.day 2024 1 20) Scenario.basic_subscription) as Hgate.
  { exists 0%nat. split; reflexivity. }
  split; [exact Hgate|].
  destruct (C10_required_fields_are_tested_for_truthiness (rt := utc_runtime))
    as (Hcheck & Hroute & _).
  rewrite (Hroute _ _ _ _ _ _ _ _ Hgate).
  apply Hcheck. right. right. reflexivity.
Defined.

Lemma C5_basic_plan_listing_cap_witness :
  let request := CreateProperty (Token "u1") (Scenario.day 2024 1 20)
                   (Scenario.listing_form (JNum 80)) "p4"
                   (Scenario.day 2024 1 20) (Scenario.day 2024 1 20) in
  gate_passes (rt := utc_runtime) Scenario.sample_store "u1" (Scenario.day 2024 1 20)
    Scenario.basic_subscription /\
  serve (rt := utc_runtime) request Scenario.sample_store
    = (Scenario.sample_store, Fail PlanLimitExceeded).
Proof.
  assert (gate_passes (rt := utc_runtime) Scenario.sample_store "u1"
            (Scenario.day 2024 1 20) Scenario.basic_subscription) as Hgate.
  { exists 0%nat. split; reflexivity. }
  split; [exact Hgate|].
  destruct (C5_basic_plan_listing_cap (rt := utc_runtime)) as (Hcap & Hroute & _).
  rewrite (Hroute _ _ _ _ _ _ _ _ Hgate).
  apply Hcap; reflexivity.
Defined.

(** ** Listing update *)

Section ListingUpdate.
Context `{rt : JsRuntime}.

Lemma owned_by_true (userId : string) (p : obj) :
  owned_by userId p = true <-> field p "ownerId" = JStr userId.
Proof. apply strict_eq_JStr_r. Qed.

Lemma owned_by_false (userId : string) (p : obj) :
  owned_by userId p = false <-> field p "ownerId" <> JStr userId.
Proof.
  rewrite <- owned_by_true. destruct (owned_by userId p); split; congruence.
Qed.

(** C8: listing update answers NotFound when no property has the id,
    Forbidden when the first property with the id belongs to someone else,
    and otherwise replaces that one slot of the collection by the merge of
    the patch over the record, in which id and ownerId are those of the
    record whatever the patch says, updatedAt is the time of the call, and
    every other field is the patch's where the patch has it and the
    record's where not; the properties file then reads as the collection
    with that one slot replaced, every other slot and every other file as
    before.  Behind a gate that passes, the route is this handler. *)
Theorem C8_listing_update :
  (forall (st : store) (userId : string) (id : string) (body : obj) (now : Z),
     let properties := readData st PROPERTIES_FILE in
     let has_id (p : obj) := strict_eq (field p "id") (JStr id) in
     let outcome := updateProperty userId id body now st in
     ((forall p, p ∈ properties -> field p "id" <> JStr id) ->
      outcome = (st, Fail NotFound)) /\
     (forall i property,
        find_ref has_id properties = Some (i, property) ->
        field property "ownerId" <> JStr userId ->
        outcome = (st, Fail Forbidden)) /\
     (forall i property,
        find_ref has_id properties = Some (i, property) ->
        field property "ownerId" = JStr userId ->
        exists updatedProperty,
          outcome = (writeData st PROPERTIES_FILE (<[i := updatedProperty]> properties),
                     Send 200 (OneRecord updatedProperty)) /\
          readData outcome.1 PROPERTIES_FILE = <[i := updatedProperty]> properties /\
          readData outcome.1 PROPERTIES_FILE !! i = Some updatedProperty /\
          (forall j, j <> i ->
             readData outcome.1 PROPERTIES_FILE !! j = properties !! j) /\
          field updatedProperty "id" = field property "id" /\
          field updatedProperty "ownerId" = field property "ownerId" /\
          field updatedProperty "updatedAt" = JStr (toISOString now) /\
          (forall k, k <> "id" -> k <> "ownerId" -> k <> "updatedAt" ->
             field updatedProperty k =
             match body !! k with Some v => v | None => field property k end) /\
          length (<[i := updatedProperty]> properties) = length properties /\
          (forall j, j <> i ->
             <[i := updatedProperty]> properties !! j = properties !! j) /\
          (forall q, q <> PROPERTIES_FILE ->
             readData outcome.1 q = readData st q))) /\
  (forall (st : store) (userId : string) (gate : Z) (subscription : obj)
          (id : string) (body : obj) (now : Z),
     gate_passes st userId gate subscription ->
     serve (UpdateProperty (Token userId) gate id body now) st
     = updateProperty userId id body now st).
Proof.
  split.
  2: { intros st userId gate subscription id body now Hgate.
       apply (serve_behind_the_gate _ _ _ _ Hgate). }
  intros st userId id body now properties has_id outcome.
  subst outcome properties has_id. unfold updateProperty.
  split; [|split].
  - intros Hnone.
    match goal with |- context [find_ref ?f ?l] =>
      assert (find_ref f l = None) as ->; [|done] end.
    apply find_ref_None. intros p Hp. specialize (Hnone p Hp).
    destruct (strict_eq _ _) eqn:E; [|done].
    by apply strict_eq_JStr_r in E.
  - intros i property Hfind Howner. rewrite Hfind.
    apply owned_by_false in Howner. by rewrite Howner.
  - intros i property Hfind Howner. rewrite Hfind.
    pose proof Howner as Howned. apply owned_by_true in Howned. rewrite Howned.
    cbn [negb]. eexists. split; [reflexivity|].
    apply find_ref_Some in Hfind as (Hi & Hid & _).
    pose proof (lookup_lt_Some _ _ _ Hi) as Hlt.
    apply strict_eq_JStr_r in Hid.
    split; [simpl; apply readData_writeData_eq|].
    repeat split.
    + simpl. rewrite readData_writeData_eq. by apply list_lookup_insert_eq.
    + intros j Hj. simpl. rewrite readData_writeData_eq. by apply list_lookup_insert_ne.
    + rewrite !field_set_field_ne, field_set_field_eq by done. by rewrite Hid.
    + rewrite !field_set_field_ne, field_set_field_eq by done. by rewrite Howner.
    + by rewrite field_set_field_eq.
    + intros k Hk1 Hk2 Hk3. rewrite !field_set_field_ne by done. apply field_spread.
    + apply length_insert.
    + intros j Hj. by apply list_lookup_insert_ne.
    + intros q Hq. simpl. by apply readData_writeData_ne.
Qed.

End ListingUpdate.

(** The host renames "p2"; the patch also tries to change id and owner. *)
Lemma C8_listing_update_witness :
  let patch : obj := object_literal
    [("title", JStr "Loft"); ("id", JStr "p9"); ("ownerId", JStr "u2")] in
  let outcome := serve (rt := utc_runtime)
    (UpdateProperty (Token "u1") (Scenario.day 2024 1 20) "p2" patch
       (Scenario.day 2024 1 20)) Scenario.sample_store in
  gate_passes (rt := utc_runtime) Scenario.sample_store "u1" (Scenario.day 2024 1 20)
    Scenario.basic_subscription /\
  exists updatedProperty,
    outcome.2 = Send 200 (OneRecord updatedProperty) /\
    readData outcome.1 PROPERTIES_FILE
      = [Scenario.listing "p1" true; updatedProperty; Scenario.listing "p3" false] /\
    field updatedProperty "id" = JStr "p2" /\
    field updatedProperty "ownerId" = JStr "u1" /\
    field updatedProperty "title" = JStr "Loft".
Proof.
  intros patch outcome.
  assert (gate_passes (rt := utc_runtime) Scenario.sample_store "u1"
            (Scenario.day 2024 1 20) Scenario.basic_subscription) as Hgate.
  { exists 0%nat. split; reflexivity. }
  split; [exact Hgate|].
  destruct (C8_listing_update (rt := utc_runtime)) as (Hupdate & Hroute).
  destruct (Hupdate Scenario.sample_store "u1" "p2" patch (Scenario.day 2024 1 20))
    as (_ & _ & Hmerge).
  destruct (Hmerge 1%nat (Scenario.listing "p2" false))
    as (updatedProperty & Hreply & Hread & _ & _ & Hid & Howner & _ & Hrest & _).
  { reflexivity. }
  { reflexivity. }
  exists updatedProperty. subst outcome.
  rewrite (Hroute _ _ _ _ _ _ _ Hgate), Hread, Hreply, Hid, Howner.
  rewrite (Hrest "title") by done.
  repeat split; reflexivity.
Defined.

(** ** Updating the status of a booking *)

Section BookingStatus.
Context `{rt : JsRuntime}.

(** A successful updateStatus was asked by the owner of the property that
    the booking names. *)
Lemma updateBookingStatus_success (st st' : store) (c : credential) (gate : Z)
    (id : string) (body : obj) (code : Z) (p : payload) :
  serve (UpdateBookingStatus c gate id body) st = (st', Send code p) ->
  exists userId i booking property,
    c = Token userId /\
    find_ref (fun b => strict_eq (field b "id") (JStr id)) (readData st BOOKINGS_FILE)
      = Some (i, booking) /\
    find (fun p => strict_eq (field p "id") (field booking "propertyId"))
         (readData st PROPERTIES_FILE) = Some property /\
    field property "ownerId" = JStr userId.
Proof.
  destruct c as [| |userId]; simpl; try discriminate.
  unfold checkSubscription, updateBookingStatus.
  destruct (find_ref (is_active_for userId) _) as [[k sub]|]; [|discriminate].
  destruct (date_lt _ _); [discriminate|].
  destruct (find_ref _ (readData st BOOKINGS_FILE)) as [[i booking]|] eqn:Hbooking;
    [|discriminate].
  destruct (find _ (readData st PROPERTIES_FILE)) as [property|] eqn:Hproperty;
    [|discriminate].
  destruct (owned_by userId property) eqn:Howner; cbn [negb]; [|discriminate].
  intros _. exists userId, i, booking, property. by apply owned_by_true in Howner.
Qed.

(** C6: updateStatus resolves the owner through the first property whose
    id is the booking's propertyId, and succeeds only when that property
    belongs to the caller.  For an existing booking, any other caller, the
    booking's own user included, is answered with Forbidden and the store
    is left as it was; for the owner the status of the request is stored
    as it is, whatever string it is: the bookings file then reads as the
    collection with the status of that one booking replaced.  Behind a gate
    that passes, the route is this handler. *)
Theorem C6_update_status_is_for_the_owner :
  (forall (st st' : store) (c : credential) (gate : Z) (id : string) (body : obj)
          (code : Z) (p : payload),
     serve (UpdateBookingStatus c gate id body) st = (st', Send code p) ->
     exists userId i booking property,
       c = Token userId /\
       find_ref (fun b => strict_eq (field b "id") (JStr id)) (readData st BOOKINGS_FILE)
         = Some (i, booking) /\
       find (fun p => strict_eq (field p "id") (field booking "propertyId"))
            (readData st PROPERTIES_FILE) = Some property /\
       field property "ownerId" = JStr userId) /\
  (forall (st : store) (userId : string) (id : string) (body : obj)
          (i : nat) (booking : obj),
     find_ref (fun b => strict_eq (field b "id") (JStr id)) (readData st BOOKINGS_FILE)
       = Some (i, booking) ->
     let bookings := readData st BOOKINGS_FILE in
     let booked_property :=
       find (fun p => strict_eq (field p "id") (field booking "propertyId"))
            (readData st PROPERTIES_FILE) in
     let outcome := updateBookingStatus userId id body st in
     ((forall property, booked_property = Some property ->
         field property "ownerId" <> JStr userId) ->
      outcome = (st, Fail Forbidden)) /\
     (forall property,
        booked_property = Some property -> field property "ownerId" = JStr userId ->
        let updated := set_field "status" (field body "status") booking in
        outcome = (writeData st BOOKINGS_FILE (<[i := updated]> bookings),
                   Send 200 (OneRecord updated)) /\
        readData outcome.1 BOOKINGS_FILE = <[i := updated]> bookings /\
        readData outcome.1 BOOKINGS_FILE !! i = Some updated /\
        (forall j, j <> i -> readData outcome.1 BOOKINGS_FILE !! j = bookings !! j) /\
        (forall s, field body "status" = JStr s -> field updated "status" = JStr s) /\
        (forall k, k <> "status" -> field updated k = field booking k) /\
        (forall j, j <> i -> <[i := updated]> bookings !! j = bookings !! j))) /\
  (forall (st : store) (userId : string) (gate : Z) (subscription : obj)
          (id : string) (body : obj),
     gate_passes st userId gate subscription ->
     serve (UpdateBookingStatus (Token userId) gate id body) st
     = updateBookingStatus userId id body st).
Proof.
  split; [apply updateBookingStatus_success|]. split.
  2: { intros st userId gate subscription id body Hgate.
       apply (serve_behind_the_gate _ _ _ _ Hgate). }
  intros st userId id body i booking.
  intros Hfind bookings booked_property outcome.
  subst outcome bookings booked_property. unfold updateBookingStatus.
  rewrite Hfind.
  destruct (find _ (readData st PROPERTIES_FILE)) as [property|] eqn:Hprop;
    [destruct (owned_by userId property) eqn:Howner; cbn [negb];
     [apply owned_by_true in Howner | apply owned_by_false in Howner]|];
    split.
  - intros Hnot. by destruct (Hnot property eq_refl).
  - intros property' [= <-] _. split; [done|].
    apply find_ref_Some in Hfind as (Hi & _).
    pose proof (lookup_lt_Some _ _ _ Hi) as Hlt.
    split; [|split; [|split; [|split; [|split]]]].
    + simpl. apply readData_writeData_eq.
    + simpl. rewrite readData_writeData_eq. by apply list_lookup_insert_eq.
    + intros j Hj. simpl. rewrite readData_writeData_eq. by apply list_lookup_insert_ne.
    + intros s Hs. by rewrite field_set_field_eq, Hs.
    + intros k Hk. by apply field_set_field_ne.
    + intros j Hj. by apply list_lookup_insert_ne.
  - done.
  - intros property' [= <-] Hown. by destruct Howner.
  - done.
  - intros property' [=].
Qed.

End BookingStatus.

(** The guest "u2", holding a subscription of their own, tries to change
    the status of their booking of "p1", a listing of "u1", and is refused;
    the host "u1" cancels the booking, and the file reads back with the
    new status. *)
Lemma C6_update_status_witness :
  let guest_subscription : obj := object_literal
    [("id", JStr "s2"); ("userId", JStr "u2"); ("planId", JStr "premium");
     ("status", JStr "active"); ("expiresAt", JStr "2024-01-31T00:00:00.000Z")] in
  let st := writeData Scenario.sample_store SUBSCRIPTIONS_FILE
              [Scenario.basic_subscription; guest_subscription] in
  let body : obj := object_literal [("status", JStr "cancelled")] in
  let by_host := serve (rt := utc_runtime)
    (UpdateBookingStatus (Token "u1") (Scenario.day 2024 1 20) "b1" body) st in
  field Scenario.booking_A "userId" = JStr "u2" /\
  gate_passes (rt := utc_runtime) st "u2" (Scenario.day 2024 1 20) guest_subscription /\
  serve (rt := utc_runtime)
    (UpdateBookingStatus (Token "u2") (Scenario.day 2024 1 20) "b1" body) st
    = (st, Fail Forbidden) /\
  exists updated,
    by_host.2 = Send 200 (OneRecord updated) /\
    readData by_host.1 BOOKINGS_FILE = [updated] /\
    field updated "status" = JStr "cancelled" /\
    field updated "id" = JStr "b1".
Proof.
  intros guest_subscription st body by_host.
  assert (gate_passes (rt := utc_runtime) st "u2" (Scenario.day 2024 1 20)
            guest_subscription) as Hgate.
  { exists 1%nat. split; reflexivity. }
  assert (gate_passes (rt := utc_runtime) st "u1" (Scenario.day 2024 1 20)
            Scenario.basic_subscription) as Hhost.
  { exists 0%nat. split; reflexivity. }
  assert (find (fun p => strict_eq (field p "id") (field Scenario.booking_A "propertyId"))
               (readData st PROPERTIES_FILE) = Some (Scenario.listing "p1" true))
    as Hproperty by reflexivity.
  split; [reflexivity|]. split; [exact Hgate|].
  destruct (C6_update_status_is_for_the_owner (rt := utc_runtime))
    as (_ & Hstatus & Hroute).
  split.
  - rewrite (Hroute _ _ _ _ _ _ Hgate).
    apply (Hstatus st "u2" "b1" body 0%nat Scenario.booking_A).
    + reflexivity.
    + rewrite Hproperty. intros property [= <-].
      assert (field (Scenario.listing "p1" true) "ownerId" = JStr "u1") as -> by reflexivity.
      discriminate.
  - destruct (Hstatus st "u1" "b1" body 0%nat Scenario.booking_A eq_refl) as (_ & Howner).
    destruct (Howner (Scenario.listing "p1" true) Hproperty eq_refl)
      as (Hreply & Hread & _ & _ & Hstored & Hkept & _).
    exists (set_field "status" (field body "status") Scenario.booking_A).
    subst by_host. rewrite (Hroute _ _ _ _ _ _ Hhost), Hread, Hreply.
    split; [reflexivity|]. split; [reflexivity|]. split.
    + apply Hstored. reflexivity.
    + rewrite Hkept by done. reflexivity.
Defined.

(** ** Booking creation: the conflict check *)

Section BookingConflict.
Context `{rt : JsRuntime}.

Lemma conflicts_spec (propertyId : jsval) (a b : Z) (bk : obj) (c d : Z) :
  newDate (field bk "checkIn") = Some c ->
  newDate (field bk "checkOut") = Some d ->
  conflicts propertyId (Some a) (Some b) bk = true <->
  strict_eq (field bk "propertyId") propertyId = true /\
  field bk "status" = JStr "confirmed" /\
  ((c <= a /\ a < d) \/ (c < b /\ b <= d) \/ (a <= c /\ d <= b)).
Proof.
  intros Hc Hd. unfold conflicts. rewrite Hc, Hd.
  rewrite <- (strict_eq_JStr_r (field bk "status")).
  unfold date_ge, date_lt, date_gt, date_le, date_cmp.
  destruct (strict_eq (field bk "propertyId") propertyId),
           (strict_eq (field bk "status") (JStr "confirmed")); cbn [negb orb];
    try (split; [discriminate | intros (? & ? & ?); discriminate]).
  rewrite !orb_true_iff, !andb_true_iff, !Z.geb_le, !Z.ltb_lt, !Z.gtb_lt, !Z.leb_le.
  tauto.
Qed.

(** C1, as the code has it: for a request that reaches the conflict check
    with a check-in before its check-out, an existing booking whose
    check-in is before its check-out conflicts iff it is for the same
    property, is confirmed, and the half-open intervals overlap; the
    overlap rule makes a booking conflict whatever its own dates are; any
    conflict is answered with DatesUnavailable and nothing is appended;
    without a conflict the booking is appended.  Against the booking of
    10 to 15 January, 14 to 20 January conflicts and 15 to 20 January does
    not. *)
Theorem C1_booking_conflict :
  (forall (st : store) (userId : string) (body : obj) (id : string) (now : Z)
          (property : obj) (a b : Z),
     truthy (field body "propertyId") = true ->
     truthy (field body "checkIn") = true ->
     truthy (field body "checkOut") = true ->
     find (fun p => strict_eq (field p "id") (field body "propertyId"))
          (readData st PROPERTIES_FILE) = Some property ->
     newDate (field body "checkIn") = Some a ->
     newDate (field body "checkOut") = Some b ->
     a < b ->
     let propertyId := field body "propertyId" in
     let bookings := readData st BOOKINGS_FILE in
     let outcome := serve (CreateBooking (Token userId) body id now) st in
     (forall bk c d,
        newDate (field bk "checkIn") = Some c ->
        newDate (field bk "checkOut") = Some d ->
        (strict_eq (field bk "propertyId") propertyId = true /\
         field bk "status" = JStr "confirmed" /\ half_open_conflict a b c d ->
         conflicts propertyId (Some a) (Some b) bk = true) /\
        (c < d ->
         conflicts propertyId (Some a) (Some b) bk = true ->
         strict_eq (field bk "propertyId") propertyId = true /\
         field bk "status" = JStr "confirmed" /\ half_open_conflict a b c d)) /\
     ((exists bk, bk ∈ bookings /\ conflicts propertyId (Some a) (Some b) bk = true) ->
      outcome = (st, Fail DatesUnavailable)) /\
     ((forall bk, bk ∈ bookings -> conflicts propertyId (Some a) (Some b) bk = false) ->
      exists newBooking,
        outcome = (writeData st BOOKINGS_FILE (bookings ++ [newBooking]),
                   Send 201 (OneRecord newBooking)))) /\
  conflicts (JStr "p1") (newDate (JStr "2024-01-14")) (newDate (JStr "2024-01-20"))
    Scenario.booking_A = true /\
  conflicts (JStr "p1") (newDate (JStr "2024-01-15")) (newDate (JStr "2024-01-20"))
    Scenario.booking_A = false.
Proof.
  split; [|split; reflexivity].
  intros st userId body id now property a b.
  intros Hpid Hin Hout Hprop Ha Hb Hab propertyId bookings outcome.
  subst outcome bookings propertyId. split; [|split].
  - intros bk c d Hc Hd. rewrite (conflicts_spec _ _ _ _ _ _ Hc Hd).
    unfold half_open_conflict. split.
    + intros (? & ? & ? & ?). repeat split; [done..|]. lia.
    + intros Hcd (? & ? & ?). repeat split; [done..| |]; lia.
  - intros Hex. apply find_is_Some in Hex as [bk Hbk].
    simpl. unfold createBooking. by rewrite Hpid, Hin, Hout, Hprop, Ha, Hb, Hbk.
  - intros Hnone. apply find_None in Hnone.
    simpl. unfold createBooking. rewrite Hpid, Hin, Hout, Hprop, Ha, Hb, Hnone.
    by eexists.
Qed.

End BookingConflict.

(** The guest asks for 14 to 20 January, which the booking of 10 to 15
    January blocks. *)
Lemma C1_booking_conflict_witness :
  serve (rt := utc_runtime)
    (CreateBooking (Token "u2") (Scenario.booking_form "2024-01-14" "2024-01-20")
       "b2" (Scenario.day 2024 1 5)) Scenario.sample_store
  = (Scenario.sample_store, Fail DatesUnavailable).
Proof.
  apply (proj1 (C1_booking_conflict (rt := utc_runtime)) Scenario.sample_store "u2"
           (Scenario.booking_form "2024-01-14" "2024-01-20") "b2"
           (Scenario.day 2024 1 5) (Scenario.listing "p1" true)
           (Scenario.day 2024 1 14) (Scenario.day 2024 1 20));
    try (reflexivity).
  exists Scenario.booking_A. split; [|reflexivity].
  apply list_elem_of_here.
Defined.

(** A request whose check-in and check-out are both 10 January, the day
    the existing booking starts.  The handler answers DatesUnavailable,
    although the empty interval from 10 to 10 January does not overlap
    the booking's by the rule [a < d /\ c < b]. *)
Lemma C1_counterexample :
  let a := Scenario.day 2024 1 10 in
  let b := Scenario.day 2024 1 10 in
  let c := Scenario.day 2024 1 10 in
  let d := Scenario.day 2024 1 15 in
  newDate (rt := utc_runtime) (JStr "2024-01-10") = Some a /\
  newDate (rt := utc_runtime) (field Scenario.booking_A "checkIn") = Some c /\
  newDate (rt := utc_runtime) (field Scenario.booking_A "checkOut") = Some d /\
  readData Scenario.sample_store BOOKINGS_FILE = [Scenario.booking_A] /\
  serve (rt := utc_runtime)
    (CreateBooking (Token "u2") (Scenario.booking_form "2024-01-10" "2024-01-10")
       "b2" (Scenario.day 2024 1 5)) Scenario.sample_store
  = (Scenario.sample_store, Fail DatesUnavailable) /\
  ~ half_open_conflict a b c d.
Proof.
  repeat split; try (reflexivity).
  unfold half_open_conflict. vm_compute. intros [_ H]. discriminate H.
Qed.

(** ** Booking creation: the status of a new booking *)

Section BookingStatusAtCreation.
Context `{rt : JsRuntime}.

(** What serving one request does to the bookings file. *)
Lemma serve_bookings (r : request) (st : store) :
  let before := readData st BOOKINGS_FILE in
  let after := readData (serve r st).1 BOOKINGS_FILE in
  after = before \/
  (exists c body id now newBooking,
     r = CreateBooking c body id now /\ after = before ++ [newBooking]) \/
  (exists c gate id body i booking,
     r = UpdateBookingStatus c gate id body /\
     before !! i = Some booking /\
     after = <[i := set_field "status" (field body "status") booking]> before).
Proof.
  destruct r as [| | | | | c | | | c | c | c | c | c | | c | c]; simpl;
    try destruct c; simpl;
    unfold register, login, me, getPlans, mySubscription, subscribe, listProperties,
      getProperty, checkSubscription, createProperty, updateProperty, deleteProperty,
      myListings, createBooking, myBookings, propertyBookings, updateBookingStatus;
    repeat case_match; simpl;
    rewrite ?readData_writeData_eq, ?readData_writeData_ne by done;
    try (by left).
  all: try (right; left; by repeat eexists).
  right. right.
    match goal with H : find_ref _ _ = Some _ |- _ =>
      apply find_ref_Some in H as (H & _) end.
    by repeat eexists.
Qed.

(** C7: a booking that is created has status "confirmed" when the
    [instant] field of the booked property is truthy, [true] in particular,
    and "pending" when it is not, [false] in particular; and no request
    other than updateStatus changes or removes a booking that is in the
    file, so a pending booking stays pending until an updateStatus. *)
Theorem C7_status_of_a_new_booking :
  (forall (st st' : store) (userId : string) (body : obj) (id : string) (now : Z)
          (code : Z) (newBooking : obj),
     serve (CreateBooking (Token userId) body id now) st
       = (st', Send code (OneRecord newBooking)) ->
     exists property,
       find (fun p => strict_eq (field p "id") (field body "propertyId"))
            (readData st PROPERTIES_FILE) = Some property /\
       field newBooking "status" =
         JStr (if truthy (field property "instant") then "confirmed" else "pending") /\
       (field property "instant" = JBool true ->
        field newBooking "status" = JStr "confirmed") /\
       (field property "instant" = JBool false ->
        field newBooking "status" = JStr "pending") /\
       readData st' BOOKINGS_FILE = readData st BOOKINGS_FILE ++ [newBooking]) /\
  (forall (r : request) (st : store) (i : nat) (booking : obj),
     (forall c gate id body, r <> UpdateBookingStatus c gate id body) ->
     readData st BOOKINGS_FILE !! i = Some booking ->
     readData (serve r st).1 BOOKINGS_FILE !! i = Some booking).
Proof.
  split.
  - intros st st' userId body id now code newBooking. simpl. unfold createBooking.
    destruct (_ || _ || negb _); [discriminate|].
    destruct (find _ (readData st PROPERTIES_FILE)) as [property|]; [|discriminate].
    destruct (find _ (readData st BOOKINGS_FILE)); [discriminate|].
    destruct (newDate (field body "checkIn")); [|discriminate].
    destruct (newDate (field body "checkOut")); [|discriminate].
    intros [= <- <- <-]. exists property. split; [reflexivity|].
    rewrite readData_writeData_eq, !field_object_literal. simpl.
    repeat split; by intros ->.
  - intros r st i booking Hr Hi.
    destruct (serve_bookings r st) as [-> | [(c & body & id & now & nb & _ & ->) | H]].
    + done.
    + by apply lookup_app_l_Some.
    + destruct H as (c & gate & id & body & _ & _ & -> & _). by destruct (Hr c gate id body).
Qed.

End BookingStatusAtCreation.

(** The guest books the instant listing "p1" from 15 to 20 January. *)
Lemma C7_status_of_a_new_booking_witness :
  let request := CreateBooking (Token "u2")
                   (Scenario.booking_form "2024-01-15" "2024-01-20")
                   "b2" (Scenario.day 2024 1 5) in
  exists st' newBooking,
    serve (rt := utc_runtime) request Scenario.sample_store
      = (st', Send 201 (OneRecord newBooking)) /\
    field newBooking "status" = JStr "confirmed".
Proof.
  intros request.
  destruct (serve (rt := utc_runtime) request Scenario.sample_store)
    as [st' reply] eqn:Hserve.
  assert (exists newBooking, reply = Send 201 (OneRecord newBooking)) as [newBooking ->].
  { eexists. apply (f_equal snd) in Hserve. simpl in Hserve. rewrite <- Hserve.
    reflexivity. }
  exists st', newBooking. split; [reflexivity|].
  destruct (proj1 (C7_status_of_a_new_booking (rt := utc_runtime))
              Scenario.sample_store st' "u2"
              (Scenario.booking_form "2024-01-15" "2024-01-20") "b2"
              (Scenario.day 2024 1 5) 201 newBooking Hserve)
    as (property & Hfind & _ & Hinstant & _).
  assert (Some property = Some (Scenario.listing "p1" true)) as [= ->]
    by (rewrite <- Hfind; reflexivity).
  apply Hinstant. reflexivity.
Defined.

(** ** Subscribing *)

Section Subscribing.
Context `{rt : JsRuntime}.

Lemma plans_valid (p : plan) :
  p ∈ plans ->
  find (fun q => strict_eq (JStr (plan_id q)) (JStr (plan_id p))) plans = Some p /\
  truthy (JStr (plan_id p)) = true /\
  plan_duration p = 30.
Proof.
  unfold plans. rewrite !elem_of_cons, elem_of_nil.
  intros [-> | [-> | [-> | []]]]; by vm_compute.
Qed.

Lemma is_active_for_renew (u : string) (planId : jsval) (p : plan) (now expiresAt : Z)
    (sub : obj) :
  is_active_for u (renew planId p now expiresAt sub) = is_active_for u sub.
Proof.
  unfold is_active_for, renew. by rewrite !field_set_field_ne by done.
Qed.

Lemma is_active_for_new (u id userId : string) (planId : jsval) (p : plan)
    (now expiresAt : Z) :
  is_active_for u (new_subscription id userId planId p now expiresAt)
  = String.eqb userId u.
Proof.
  unfold is_active_for, new_subscription. rewrite !field_object_literal. simpl.
  by rewrite andb_true_r.
Qed.

Lemma is_active_for_expired (u : string) (sub : obj) :
  is_active_for u (set_field "status" (JStr "expired") sub) = false.
Proof.
  unfold is_active_for. rewrite field_set_field_eq. simpl. apply andb_false_r.
Qed.

(** The two successful branches of subscribe. *)
Lemma subscribe_valid (st : store) (userId : string) (body : obj) (id : string)
    (now : Z) (p : plan) :
  p ∈ plans -> field body "planId" = JStr (plan_id p) ->
  let subscriptions := readData st SUBSCRIPTIONS_FILE in
  subscribe userId body id now st =
  match find_ref (is_active_for userId) subscriptions with
  | Some (i, existing) =>
      let renewed := renew (JStr (plan_id p)) p now (addDays now 30) existing in
      (writeData st SUBSCRIPTIONS_FILE (<[i := renewed]> subscriptions),
       Send 200 (SubscriptionOf (Some renewed)))
  | None =>
      let created :=
        new_subscription id userId (JStr (plan_id p)) p now (addDays now 30) in
      (writeData st SUBSCRIPTIONS_FILE (subscriptions ++ [created]),
       Send 200 (SubscriptionOf (Some created)))
  end.
Proof.
  intros Hp Hbody subscriptions. subst subscriptions.
  destruct (plans_valid p Hp) as (Hfind & Htruthy & Hduration).
  unfold subscribe. rewrite Hbody, Htruthy, Hfind, Hduration. cbn [negb].
  destruct (find_ref _ _) as [[i existing]|]; [done|].
  by rewrite lookup_last_snoc.
Qed.

(** After a successful subscribe the user has an active record, the one
    of the reply, and its expiry is thirty days after the call. *)
Lemma subscribe_result (st : store) (userId : string) (body : obj) (id : string)
    (now : Z) (p : plan) :
  p ∈ plans -> field body "planId" = JStr (plan_id p) ->
  let outcome := subscribe userId body id now st in
  exists i record,
    outcome.2 = Send 200 (SubscriptionOf (Some record)) /\
    find_ref (is_active_for userId) (readData outcome.1 SUBSCRIPTIONS_FILE)
      = Some (i, record) /\
    field record "expiresAt" = JStr (toISOString (addDays now 30)) /\
    field record "planId" = JStr (plan_id p) /\
    (forall i' existing,
       find_ref (is_active_for userId) (readData st SUBSCRIPTIONS_FILE)
         = Some (i', existing) ->
       i = i' /\ field record "id" = field existing "id" /\
       length (readData outcome.1 SUBSCRIPTIONS_FILE)
         = length (readData st SUBSCRIPTIONS_FILE)).
Proof.
  intros Hp Hbody outcome. subst outcome. rewrite (subscribe_valid _ _ _ _ _ p Hp Hbody).
  destruct (find_ref _ (readData st _)) as [[i existing]|] eqn:Hfind; simpl;
    rewrite readData_writeData_eq.
  - exists i, (renew (JStr (plan_id p)) p now (addDays now 30) existing).
    split; [done|]. split.
    { apply find_ref_insert with existing; [done|]. rewrite is_active_for_renew.
      by apply find_ref_Some in Hfind as (_ & ? & _). }
    unfold renew. split; [|split].
    + by rewrite field_set_field_ne, field_set_field_eq by done.
    + by rewrite !field_set_field_ne, field_set_field_eq by done.
    + intros i' existing' [= <- <-]. split; [done|]. split.
      * by rewrite !field_set_field_ne by done.
      * apply length_insert.
  - exists (length (readData st SUBSCRIPTIONS_FILE)),
      (new_subscription id userId (JStr (plan_id p)) p now (addDays now 30)).
    split; [done|]. split.
    { apply find_ref_snoc; [done|]. rewrite is_active_for_new. apply String.eqb_refl. }
    unfold new_subscription. rewrite !field_object_literal. by repeat split.
Qed.

(** C4: subscribe with a valid plan answers with the user's active
    record, whose expiresAt is the time of the call plus the thirty days of
    the plan, whatever the store held before; a second subscribe rewrites
    the same record and its expiresAt is the time of the second call plus
    thirty days.  In a UTC process, subscribing on 1 January 2024 and again
    on 2 January leaves an expiry of 1 February, thirty days after the
    second call, and not one sixty days after either call. *)
Theorem C4_renewal_counts_from_the_call :
  (forall (st : store) (userId : string) (body : obj) (id : string) (now : Z)
          (p : plan),
     p ∈ plans -> field body "planId" = JStr (plan_id p) ->
     let outcome := serve (Subscribe (Token userId) body id now) st in
     exists i record,
       outcome.2 = Send 200 (SubscriptionOf (Some record)) /\
       find_ref (is_active_for userId) (readData outcome.1 SUBSCRIPTIONS_FILE)
         = Some (i, record) /\
       plan_duration p = 30 /\
       field record "expiresAt"
         = JStr (toISOString (addDays now (plan_duration p)))) /\
  (forall (st : store) (userId : string) (body1 body2 : obj) (id1 id2 : string)
          (t1 t2 : Z) (p1 p2 : plan),
     p1 ∈ plans -> field body1 "planId" = JStr (plan_id p1) ->
     p2 ∈ plans -> field body2 "planId" = JStr (plan_id p2) ->
     let first := serve (Subscribe (Token userId) body1 id1 t1) st in
     let second := serve (Subscribe (Token userId) body2 id2 t2) first.1 in
     exists i record1 record2,
       first.2 = Send 200 (SubscriptionOf (Some record1)) /\
       second.2 = Send 200 (SubscriptionOf (Some record2)) /\
       readData first.1 SUBSCRIPTIONS_FILE !! i = Some record1 /\
       readData second.1 SUBSCRIPTIONS_FILE !! i = Some record2 /\
       length (readData second.1 SUBSCRIPTIONS_FILE)
         = length (readData first.1 SUBSCRIPTIONS_FILE) /\
       field record2 "id" = field record1 "id" /\
       field record1 "expiresAt" = JStr (toISOString (addDays t1 30)) /\
       field record2 "expiresAt" = JStr (toISOString (addDays t2 30))) /\
  (let plan_form : obj := object_literal [("planId", JStr "premium")] in
   let t1 := Scenario.day 2024 1 1 in
   let t2 := Scenario.day 2024 1 2 in
   let first := serve (rt := utc_runtime) (Subscribe (Token "u1") plan_form "s1" t1)
                  init_store in
   let second := serve (rt := utc_runtime) (Subscribe (Token "u1") plan_form "s2" t2)
                   first.1 in
   exists record,
     readData second.1 SUBSCRIPTIONS_FILE = [record] /\
     field record "id" = JStr "s1" /\
     field record "expiresAt" = JStr "2024-02-01T00:00:00.000Z" /\
     toISOString (t2 + 30 * msPerDay) = "2024-02-01T00:00:00.000Z" /\
     toISOString (t2 + 2 * 30 * msPerDay) = "2024-03-02T00:00:00.000Z" /\
     toISOString (t1 + 2 * 30 * msPerDay) = "2024-03-01T00:00:00.000Z").
Proof.
  split; [|split].
  - intros st userId body id now p Hp Hbody outcome. subst outcome. simpl.
    destruct (subscribe_result st userId body id now p Hp Hbody)
      as (i & record & Hreply & Hfind & Hexp & _).
    destruct (plans_valid p Hp) as (_ & _ & Hduration).
    exists i, record. by rewrite Hduration.
  - intros st userId body1 body2 id1 id2 t1 t2 p1 p2 Hp1 Hb1 Hp2 Hb2 first second.
    subst first second. simpl.
    destruct (subscribe_result st userId body1 id1 t1 p1 Hp1 Hb1)
      as (i & record1 & Hreply1 & Hfind1 & Hexp1 & _).
    destruct (subscribe_result (subscribe userId body1 id1 t1 st).1 userId body2 id2 t2
                p2 Hp2 Hb2)
      as (i2 & record2 & Hreply2 & Hfind2 & Hexp2 & _ & Hsame).
    destruct (Hsame i record1 Hfind1) as (-> & Hid & Hlen).
    exists i, record1, record2.
    apply find_ref_Some in Hfind1 as (Hl1 & _). apply find_ref_Some in Hfind2 as (Hl2 & _).
    by repeat split.
  - eexists. split; [reflexivity|]. repeat split; reflexivity.
Qed.

End Subscribing.

(** A first subscription to the premium plan, on the empty store. *)
Lemma C4_renewal_witness :
  let plan_form : obj := object_literal [("planId", JStr "premium")] in
  let t := Scenario.day 2024 1 1 in
  let outcome := serve (rt := utc_runtime) (Subscribe (Token "u1") plan_form "s1" t)
                   init_store in
  exists i record,
    outcome.2 = Send 200 (SubscriptionOf (Some record)) /\
    find_ref (is_active_for "u1") (readData outcome.1 SUBSCRIPTIONS_FILE)
      = Some (i, record) /\
    field record "expiresAt" = JStr "2024-01-31T00:00:00.000Z".
Proof.
  intros plan_form t outcome.
  destruct (proj1 (C4_renewal_counts_from_the_call (rt := utc_runtime))
              init_store "u1" plan_form "s1" t
              {| plan_id := "premium"; plan_price := 1999 # 100; plan_duration := 30 |})
    as (i & record & Hreply & Hfind & _ & Hexp).
  { right. left. }
  { reflexivity. }
  exists i, record. split; [exact Hreply|]. split; [exact Hfind|].
  rewrite Hexp. reflexivity.
Defined.

(** ** The subscriptions file under every request *)

Section SubscriptionInvariant.
Context `{rt : JsRuntime}.

(** What serving one request does to the subscriptions file: nothing, the
    gate's flip of an active record to "expired", the renewal of the
    caller's active record, or a new record for a caller without one. *)
Lemma serve_subscriptions (r : request) (st : store) :
  let before := readData st SUBSCRIPTIONS_FILE in
  let after := readData (serve r st).1 SUBSCRIPTIONS_FILE in
  after = before \/
  (exists userId i sub,
     find_ref (is_active_for userId) before = Some (i, sub) /\
     after = <[i := set_field "status" (JStr "expired") sub]> before) \/
  (exists userId body id now i existing planId p expiresAt,
     r = Subscribe (Token userId) body id now /\
     find_ref (is_active_for userId) before = Some (i, existing) /\
     after = <[i := renew planId p now expiresAt existing]> before) \/
  (exists userId body id now planId p expiresAt,
     r = Subscribe (Token userId) body id now /\
     find_ref (is_active_for userId) before = None /\
     after = before ++ [new_subscription id userId planId p now expiresAt]).
Proof.
  destruct r as [| | | | | c | | | c | c | c | c | c | | c | c]; simpl;
    try destruct c; simpl;
    unfold register, login, me, getPlans, mySubscription, subscribe, listProperties,
      getProperty, checkSubscription, createProperty, updateProperty, deleteProperty,
      myListings, createBooking, myBookings, propertyBookings, updateBookingStatus;
    repeat case_match; simpl;
    rewrite ?readData_writeData_eq, ?readData_writeData_ne by done;
    try (by left).
  all: try (right; left; by repeat eexists).
  - right. right. left. by repeat eexists.
  - right. right. right. by repeat eexists.
Qed.

Lemma active_count_cons (u : string) (x : obj) (l : list obj) :
  active_count u (x :: l) = (bit (is_active_for u x) + active_count u l)%nat.
Proof.
  unfold active_count. rewrite filter_cons.
  destruct (is_active_for u x); [by rewrite decide_True|by rewrite decide_False].
Qed.

Lemma active_count_snoc (u : string) (l : list obj) (x : obj) :
  active_count u (l ++ [x]) = (active_count u l + bit (is_active_for u x))%nat.
Proof.
  induction l as [|a l IH]; [rewrite app_nil_l, active_count_cons; lia|].
  rewrite <- app_comm_cons, !active_count_cons, IH. lia.
Qed.

Lemma active_count_insert (u : string) (l : list obj) (i : nat) (x y : obj) :
  l !! i = Some x ->
  (active_count u (<[i := y]> l) + bit (is_active_for u x)
   = active_count u l + bit (is_active_for u y))%nat.
Proof.
  revert i. induction l as [|a l IH]; intros [|i]; simpl; try discriminate.
  - intros [= ->]. rewrite !active_count_cons. lia.
  - intros Hi. rewrite !active_count_cons. specialize (IH i Hi). lia.
Qed.

Lemma active_count_zero (u : string) (l : list obj) :
  active_count u l = 0%nat <-> find_ref (is_active_for u) l = None.
Proof.
  rewrite find_ref_None_filter. unfold active_count. apply length_zero_iff_nil.
Qed.

(** Serving a request never raises a user's number of active records,
    except from zero to one, by a subscribe of that user. *)
Lemma serve_active_count (r : request) (st : store) (u : string) :
  let before := readData st SUBSCRIPTIONS_FILE in
  let after := readData (serve r st).1 SUBSCRIPTIONS_FILE in
  (active_count u after <= active_count u before)%nat \/
  ((exists body id now, r = Subscribe (Token u) body id now) /\
   active_count u before = 0%nat /\ active_count u after = 1%nat).
Proof.
  intros before after. subst before after.
  destruct (serve_subscriptions r st)
    as [-> | [(v & i & sub & Hfind & ->) |
       [(v & body & id & now & i & existing & planId & p & e & _ & Hfind & ->) |
        (v & body & id & now & planId & p & e & -> & Hfind & ->)]]].
  - by left.
  - left. apply find_ref_Some in Hfind as (Hi & _).
    pose proof (active_count_insert u _ i sub (set_field "status" (JStr "expired") sub) Hi).
    rewrite is_active_for_expired in H. simpl in H. lia.
  - left. apply find_ref_Some in Hfind as (Hi & _).
    pose proof (active_count_insert u _ i existing (renew planId p now e existing) Hi).
    rewrite is_active_for_renew in H. lia.
  - rewrite active_count_snoc, is_active_for_new.
    destruct (String.eqb v u) eqn:Hvu; simpl.
    + apply String.eqb_eq in Hvu as ->. right.
      apply active_count_zero in Hfind. split; [by repeat eexists|]. lia.
    + left. lia.
Qed.

(** C2: in every store that the server reaches from its initial files, no
    user has two active subscription records, and every request preserves
    that.  After a subscribe with a valid plan by a user who has an active
    record, the subscriptions file reads as before except for that record,
    which keeps its slot and its id and has planId, price, expiresAt and
    updatedAt overwritten; by a user who has none, the file reads as before
    with one active record appended; and the file grows only that way. *)
Theorem C2_one_active_subscription_per_user :
  (forall st, reachable st -> one_active_per_user (readData st SUBSCRIPTIONS_FILE)) /\
  (forall r st,
     one_active_per_user (readData st SUBSCRIPTIONS_FILE) ->
     one_active_per_user (readData (serve r st).1 SUBSCRIPTIONS_FILE)) /\
  (forall st userId body id now p i existing,
     p ∈ plans -> field body "planId" = JStr (plan_id p) ->
     let subscriptions := readData st SUBSCRIPTIONS_FILE in
     find_ref (is_active_for userId) subscriptions = Some (i, existing) ->
     exists renewed,
       let outcome := serve (Subscribe (Token userId) body id now) st in
       outcome
         = (writeData st SUBSCRIPTIONS_FILE (<[i := renewed]> subscriptions),
            Send 200 (SubscriptionOf (Some renewed))) /\
       readData outcome.1 SUBSCRIPTIONS_FILE = <[i := renewed]> subscriptions /\
       readData outcome.1 SUBSCRIPTIONS_FILE !! i = Some renewed /\
       length (readData outcome.1 SUBSCRIPTIONS_FILE) = length subscriptions /\
       (forall j, j <> i ->
          readData outcome.1 SUBSCRIPTIONS_FILE !! j = subscriptions !! j) /\
       field renewed "id" = field existing "id" /\
       field renewed "planId" = JStr (plan_id p) /\
       field renewed "price" = JNum (plan_price p) /\
       field renewed "expiresAt" = JStr (toISOString (addDays now 30)) /\
       field renewed "updatedAt" = JStr (toISOString now) /\
       (forall k, k <> "planId" -> k <> "price" -> k <> "expiresAt" ->
          k <> "updatedAt" -> field renewed k = field existing k)) /\
  (forall st userId body id now p,
     p ∈ plans -> field body "planId" = JStr (plan_id p) ->
     let subscriptions := readData st SUBSCRIPTIONS_FILE in
     find_ref (is_active_for userId) subscriptions = None ->
     exists created,
       let outcome := serve (Subscribe (Token userId) body id now) st in
       outcome
         = (writeData st SUBSCRIPTIONS_FILE (subscriptions ++ [created]),
            Send 200 (SubscriptionOf (Some created))) /\
       readData outcome.1 SUBSCRIPTIONS_FILE = subscriptions ++ [created] /\
       field created "id" = JStr id /\
       field created "userId" = JStr userId /\
       field created "status" = JStr "active") /\
  (forall r st,
     (length (readData st SUBSCRIPTIONS_FILE)
      < length (readData (serve r st).1 SUBSCRIPTIONS_FILE))%nat ->
     exists userId body id now,
       r = Subscribe (Token userId) body id now /\
       find_ref (is_active_for userId) (readData st SUBSCRIPTIONS_FILE) = None).
Proof.
  assert (forall r st,
     one_active_per_user (readData st SUBSCRIPTIONS_FILE) ->
     one_active_per_user (readData (serve r st).1 SUBSCRIPTIONS_FILE)) as Hstep.
  { intros r st Hinv u. specialize (Hinv u).
    destruct (serve_active_count r st u) as [Hle | (_ & _ & Hone)]; lia. }
  split; [|split; [exact Hstep|split; [|split]]].
  - induction 1 as [|st r _ IH]; [|by apply Hstep].
    intros u. unfold active_count. rewrite readData_init. simpl. lia.
  - intros st userId body id now p i existing Hp Hbody subscriptions Hfind.
    subst subscriptions. simpl.
    rewrite (subscribe_valid _ _ _ _ _ p Hp Hbody), Hfind.
    apply find_ref_Some in Hfind as (Hi & _).
    pose proof (lookup_lt_Some _ _ _ Hi) as Hlt.
    eexists. cbv zeta. split; [reflexivity|]. simpl. rewrite readData_writeData_eq.
    split; [reflexivity|].
    split; [by apply list_lookup_insert_eq|].
    split; [apply length_insert|].
    split; [intros j Hj; by apply list_lookup_insert_ne|].
    unfold renew. repeat split.
    + by rewrite !field_set_field_ne by done.
    + by rewrite !field_set_field_ne, field_set_field_eq by done.
    + by rewrite !field_set_field_ne, field_set_field_eq by done.
    + by rewrite !field_set_field_ne, field_set_field_eq by done.
    + by rewrite field_set_field_eq.
    + intros k ????. by rewrite !field_set_field_ne by done.
  - intros st userId body id now p Hp Hbody subscriptions Hfind.
    subst subscriptions. simpl.
    rewrite (subscribe_valid _ _ _ _ _ p Hp Hbody), Hfind.
    eexists. cbv zeta. split; [reflexivity|]. simpl. rewrite readData_writeData_eq.
    split; [reflexivity|]. unfold new_subscription.
    rewrite !field_object_literal. by repeat split.
  - intros r st.
    destruct (serve_subscriptions r st)
      as [-> | [(v & i & sub & Hfind & ->) |
         [(v & body & id & now & i & existing & planId & p & e & _ & Hfind & ->) |
          (v & body & id & now & planId & p & e & -> & Hfind & ->)]]];
      rewrite ?length_insert; try lia.
    intros _. by repeat eexists.
Qed.

Lemma run_cons (r : request) (rs : list request) (st : store) :
  run (r :: rs) st = run rs (serve r st).1.
Proof. reflexivity. Qed.

(** A user without an active record stays without one until a subscribe of
    that user. *)
Lemma run_keeps_inactive (u : string) (rs : list request) (st : store) :
  Forall (not_subscribe_of u) rs ->
  find_ref (is_active_for u) (readData st SUBSCRIPTIONS_FILE) = None ->
  find_ref (is_active_for u) (readData (run rs st) SUBSCRIPTIONS_FILE) = None.
Proof.
  intros Hrs. revert st. induction Hrs as [|r rs Hr _ IH]; intros st Hnone; [done|].
  rewrite run_cons. apply IH. apply active_count_zero. apply active_count_zero in Hnone.
  destruct (serve_active_count r st u) as [Hle | ((body & id & now & ->) & _)]; [lia|].
  by destruct (Hr body id now).
Qed.

(** C3, as the code has it: when the user's one active record has an
    expiry date before the gate's reading of the clock, the gate writes
    the record back with status "expired" and answers SubscriptionExpired.
    From then on, through any requests that are not a subscribe of that
    user, the gate finds no active record for the user: it answers
    SubscriptionRequired and writes nothing.  A subscribe of the user with a
    valid plan gives the user an active record again, which the gate lets
    through while its expiry date is not before the clock. *)
Theorem C3_gate_on_an_expired_subscription
    (st : store) (userId : string) (now : Z) (i : nat) (sub : obj) (e : Z) :
  find_ref (is_active_for userId) (readData st SUBSCRIPTIONS_FILE) = Some (i, sub) ->
  newDate (field sub "expiresAt") = Some e ->
  e < now ->
  one_active_per_user (readData st SUBSCRIPTIONS_FILE) ->
  let expired := set_field "status" (JStr "expired") sub in
  let st1 := writeData st SUBSCRIPTIONS_FILE
               (<[i := expired]> (readData st SUBSCRIPTIONS_FILE)) in
  (forall next, checkSubscription userId now next st = (st1, Fail SubscriptionExpired)) /\
  readData st1 SUBSCRIPTIONS_FILE !! i = Some expired /\
  field expired "status" = JStr "expired" /\
  (forall k, k <> "status" -> field expired k = field sub k) /\
  (forall rs, Forall (not_subscribe_of userId) rs ->
     forall now' next,
       checkSubscription userId now' next (run rs st1)
       = (run rs st1, Fail SubscriptionRequired)) /\
  (forall rs body id t p,
     Forall (not_subscribe_of userId) rs ->
     p ∈ plans -> field body "planId" = JStr (plan_id p) ->
     let st2 := (serve (Subscribe (Token userId) body id t) (run rs st1)).1 in
     exists j record,
       find_ref (is_active_for userId) (readData st2 SUBSCRIPTIONS_FILE)
         = Some (j, record) /\
       field record "expiresAt" = JStr (toISOString (addDays t 30)) /\
       forall now' next,
         date_lt (newDate (field record "expiresAt")) (Some now') = false ->
         checkSubscription userId now' next st2 = next record st2).
Proof.
  intros Hfind He Hlt Hinv expired st1.
  assert (find_ref (is_active_for userId) (readData st1 SUBSCRIPTIONS_FILE) = None)
    as Hnone.
  { subst st1. rewrite readData_writeData_eq. apply active_count_zero.
    pose proof (Hinv userId) as Hone.
    apply find_ref_Some in Hfind as (Hi & Hactive & _).
    pose proof (active_count_insert userId _ i sub expired Hi) as Hcount.
    subst expired. rewrite is_active_for_expired, Hactive in Hcount. simpl in Hcount. lia. }
  split; [|split; [|split; [|split; [|split]]]].
  - intros next. unfold checkSubscription. rewrite Hfind, He. simpl.
    apply Z.ltb_lt in Hlt. by rewrite Hlt.
  - subst st1. rewrite readData_writeData_eq. apply list_lookup_insert_eq.
    apply find_ref_Some in Hfind as (Hi & _). by eapply lookup_lt_Some.
  - subst expired. by rewrite field_set_field_eq.
  - intros k Hk. subst expired. by rewrite field_set_field_ne by done.
  - intros rs Hrs now' next. apply checkSubscription_required.
    by apply run_keeps_inactive.
  - intros rs body id t p Hrs Hp Hbody st2. subst st2. simpl.
    destruct (subscribe_result (run rs st1) userId body id t p Hp Hbody)
      as (j & record & _ & Hfind2 & Hexp & _).
    exists j, record. split; [done|]. split; [done|].
    intros now' next Hdate. apply checkSubscription_pass. by exists j.
Qed.

End SubscriptionInvariant.

(** ** The subscription of the sample host *)

(** The host renews with the premium plan while the basic subscription is
    active: the one record is rewritten in its slot. *)
Lemma C2_one_active_subscription_witness :
  let plan_form : obj := object_literal [("planId", JStr "premium")] in
  let t := Scenario.day 2024 1 20 in
  let outcome := serve (rt := utc_runtime) (Subscribe (Token "u1") plan_form "s9" t)
                   Scenario.sample_store in
  exists renewed,
    outcome.2 = Send 200 (SubscriptionOf (Some renewed)) /\
    readData outcome.1 SUBSCRIPTIONS_FILE = [renewed] /\
    field renewed "id" = JStr "s1" /\
    field renewed "planId" = JStr "premium" /\
    one_active_per_user [renewed].
Proof.
  intros plan_form t outcome.
  destruct (proj1 (proj2 (proj2 (C2_one_active_subscription_per_user (rt := utc_runtime))))
              Scenario.sample_store "u1" plan_form "s9" t
              {| plan_id := "premium"; plan_price := 1999 # 100; plan_duration := 30 |}
              0%nat Scenario.basic_subscription)
    as (renewed & Hserve & Hread & _ & _ & _ & Hid & Hplan & _).
  { right. left. }
  { reflexivity. }
  { reflexivity. }
  fold outcome in Hserve, Hread.
  exists renewed. rewrite Hread.
  split; [by rewrite Hserve|]. split; [reflexivity|].
  split; [by rewrite Hid|]. split; [exact Hplan|].
  pose proof (proj1 (proj2 (C2_one_active_subscription_per_user (rt := utc_runtime)))
                (Subscribe (Token "u1") plan_form "s9" t) Scenario.sample_store)
    as Hkeeps.
  fold outcome in Hkeeps. rewrite Hread in Hkeeps.
  apply Hkeeps. intros u. unfold active_count.
  etransitivity; [apply length_filter|]. simpl. lia.
Defined.

(** On 10 February the host's subscription, which ran out on 31 January,
    is still marked active.  The first gated request flips it and is
    answered SubscriptionExpired; the next is answered SubscriptionRequired
    and leaves the store alone. *)
Lemma C3_gate_on_an_expired_subscription_witness :
  let now := Scenario.day 2024 2 10 in
  let expired := set_field "status" (JStr "expired") Scenario.basic_subscription in
  let st1 := writeData Scenario.sample_store SUBSCRIPTIONS_FILE [expired] in
  serve (rt := utc_runtime) (MyListings (Token "u1") now) Scenario.sample_store
    = (st1, Fail SubscriptionExpired) /\
  serve (rt := utc_runtime) (MyListings (Token "u1") (now + 1000)) st1
    = (st1, Fail SubscriptionRequired).
Proof.
  intros now expired st1.
  destruct (C3_gate_on_an_expired_subscription (rt := utc_runtime)
              Scenario.sample_store "u1" now 0%nat Scenario.basic_subscription
              (Scenario.day 2024 1 31))
    as (Hfirst & _ & _ & _ & Hlater & _).
  { reflexivity. }
  { reflexivity. }
  { reflexivity. }
  { intros u. unfold active_count. etransitivity; [apply length_filter|]. simpl. lia. }
  split.
  - apply (Hfirst (fun _ => myListings "u1")).
  - apply (Hlater [] (Forall_nil_2 _) (now + 1000) (fun _ => myListings "u1")).
Defined.

(** The same two requests, read against the claim that every gated call
    after the expiry is answered SubscriptionExpired: the second one is
    not. *)
Lemma C3_counterexample :
  let now := Scenario.day 2024 2 10 in
  let first := serve (rt := utc_runtime) (MyListings (Token "u1") now)
                 Scenario.sample_store in
  let second := serve (rt := utc_runtime) (MyListings (Token "u1") (now + 1000))
                  first.1 in
  first.2 = Fail SubscriptionExpired /\
  second.2 = Fail SubscriptionRequired /\
  second.2 <> Fail SubscriptionExpired.
Proof.
  repeat split. discriminate.
Qed.

(** ** Read failures *)

Section ReadFailures.
Context `{rt : JsRuntime}.

Lemma readData_failure (st : store) (p : path) :
  read_failure (file_at st p) -> readData st p = [].
Proof.
  unfold readData. by destruct (file_at st p) as [| |[raw|records]].
Qed.

Lemma file_at_put_file (st : store) (p q : path) (f : file) :
  file_at (put_file st p f) q = if decide (p = q) then f else file_at st q.
Proof. by destruct p, q. Qed.

(** Replacing a file that fails to read by the text of the empty array
    changes nothing that [readData] returns. *)
Lemma readData_put_empty (st : store) (p q : path) :
  read_failure (file_at st p) ->
  readData (put_file st p (Text (JSON_stringify []))) q = readData st q.
Proof.
  intros Hfail. unfold readData at 1. rewrite file_at_put_file. case_decide as Hpq.
  - subst q. by rewrite readData_failure.
  - done.
Qed.

(** The handlers see the files only through [readData]: on two stores that
    read alike, a request gets the same reply and leaves stores that read
    alike. *)
Lemma serve_reads_only (r : request) (st1 st2 : store) :
  (forall q, readData st1 q = readData st2 q) ->
  (serve r st1).2 = (serve r st2).2 /\
  forall q, readData (serve r st1).1 q = readData (serve r st2).1 q.
Proof.
  intros Hsame.
  destruct r as [| | | | | c | | | c | c | c | c | c | | c | c]; simpl;
    try destruct c; simpl;
    unfold register, login, me, getPlans, mySubscription, subscribe, listProperties,
      getProperty, checkSubscription, createProperty, updateProperty, deleteProperty,
      myListings, createBooking, myBookings, propertyBookings, updateBookingStatus;
    rewrite ?Hsame;
    repeat case_match; simpl; (split; [done|]); intros q;
    rewrite ?readData_writeData; try case_decide; done.
Qed.

(** [written] names the one file that the request has rewritten, and a
    request for which it names none has left the store as it was. *)
Lemma written_is_the_write (r : request) (st : store) :
  match written r (serve r st).2 with
  | Some p => exists data, (serve r st).1 = writeData st p data
  | None => (serve r st).1 = st
  end.
Proof.
  destruct r as [| | | | | c | | | c | c | c | c | c | | c | c]; simpl;
    try destruct c; simpl;
    unfold register, login, me, getPlans, mySubscription, subscribe, listProperties,
      getProperty, checkSubscription, createProperty, updateProperty, deleteProperty,
      myListings, createBooking, myBookings, propertyBookings, updateBookingStatus;
    repeat case_match; simplify_eq/=; try done; by eexists.
Qed.

(** On a disk that refuses no write, the server is [serve]. *)
Lemma serve_refusing_nothing (r : request) (st : store) :
  serve_refusing (fun _ => false) r st = serve r st.
Proof. unfold serve_refusing. by destruct (written r (serve r st).2). Qed.

(** C9, as the code has it: [readData] answers the empty array for a file
    that is absent, unreadable or unparseable, and a request is answered,
    and leaves the files reading, as on a store where that file holds the
    empty array, on any disk, unless the request goes on to rewrite that
    very file and the disk refuses the write.  A request whose write is
    refused is answered with the 500 of the catch block and changes
    nothing. *)
Theorem C9_read_failures_read_as_empty :
  (forall (st : store) (p : path),
     read_failure (file_at st p) -> readData st p = []) /\
  (forall (refused : path -> bool) (r : request) (st : store) (p : path),
     read_failure (file_at st p) ->
     (written r (serve r st).2 = Some p -> refused p = false) ->
     let st0 := put_file st p (Text (JSON_stringify [])) in
     readData st0 p = [] /\
     (serve_refusing refused r st).2 = (serve_refusing refused r st0).2 /\
     forall q, readData (serve_refusing refused r st).1 q
               = readData (serve_refusing refused r st0).1 q) /\
  (forall (refused : path -> bool) (r : request) (st : store) (p : path),
     written r (serve r st).2 = Some p -> refused p = true ->
     serve_refusing refused r st = (st, Fail InternalError)).
Proof.
  split; [apply readData_failure|]. split.
  - intros refused r st p Hfail Hwrite st0.
    assert (forall q, readData st q = readData st0 q) as Hsame.
    { intros q. subst st0. by rewrite readData_put_empty. }
    split; [subst st0; by destruct p|].
    destruct (serve_reads_only r st st0 Hsame) as (Hreply & Hreads).
    unfold serve_refusing. rewrite <- Hreply.
    destruct (written r (serve r st).2) as [q|]; [|done].
    destruct (refused q); [|done]. by split.
  - intros refused r st p Hwrite Hrefused. unfold serve_refusing.
    by rewrite Hwrite, Hrefused.
Qed.

End ReadFailures.

(** With the subscriptions file gone, a first subscription is answered as
    on the empty collection, on a disk that lets the file be created. *)
Lemma C9_read_failures_witness :
  let st := put_file Scenario.sample_store SUBSCRIPTIONS_FILE Absent in
  let st0 := put_file st SUBSCRIPTIONS_FILE (Text (JSON_stringify [])) in
  let r := Subscribe (Token "u1") (object_literal [("planId", JStr "basic")]) "s1"
             (Scenario.day 2024 1 1) in
  read_failure (file_at st SUBSCRIPTIONS_FILE) /\
  readData st SUBSCRIPTIONS_FILE = [] /\
  (serve (rt := utc_runtime) r st).2 = (serve (rt := utc_runtime) r st0).2 /\
  readData (serve (rt := utc_runtime) r st).1 SUBSCRIPTIONS_FILE
    = readData (serve (rt := utc_runtime) r st0).1 SUBSCRIPTIONS_FILE.
Proof.
  intros st st0 r.
  assert (read_failure (file_at st SUBSCRIPTIONS_FILE)) as Hfail by exact I.
  destruct (C9_read_failures_read_as_empty (rt := utc_runtime)) as (Hread & Hsame & _).
  split; [exact Hfail|]. split; [exact (Hread st _ Hfail)|].
  destruct (Hsame (fun _ => false) r st SUBSCRIPTIONS_FILE Hfail (fun _ => eq_refl))
    as (_ & Hreply & Hreads).
  rewrite !serve_refusing_nothing in Hreply.
  specialize (Hreads SUBSCRIPTIONS_FILE). rewrite !serve_refusing_nothing in Hreads.
  split; [exact Hreply | exact Hreads].
Defined.

(** A directory stands where subscriptions.json should be: the file can
    be neither read nor written.  [readData] answers the empty array, but
    a first subscription is answered with a 500, where on the empty
    collection it is answered with the new subscription. *)
Lemma C9_counterexample :
  let st := put_file init_store SUBSCRIPTIONS_FILE Unreadable in
  let refused (p : path) := bool_decide (p = SUBSCRIPTIONS_FILE) in
  let r := Subscribe (Token "u1") (object_literal [("planId", JStr "basic")]) "s1"
             (Scenario.day 2024 1 1) in
  read_failure (file_at st SUBSCRIPTIONS_FILE) /\
  readData st SUBSCRIPTIONS_FILE = [] /\
  readData init_store SUBSCRIPTIONS_FILE = [] /\
  serve_refusing (rt := utc_runtime) refused r st = (st, Fail InternalError) /\
  (exists created,
     (serve_refusing (rt := utc_runtime) (fun _ => false) r init_store).2
       = Send 200 (SubscriptionOf (Some created)) /\
     readData (serve_refusing (rt := utc_runtime) (fun _ => false) r init_store).1
       SUBSCRIPTIONS_FILE = [created]) /\
  (serve_refusing (rt := utc_runtime) refused r st).2
    <> (serve_refusing (rt := utc_runtime) (fun _ => false) r init_store).2.
Proof.
  repeat split; try reflexivity.
  - eexists. split; reflexivity.
  - discriminate.
Qed.
